(** * cypherantic: object-graph mapping over a Cypher session

    A shallow embedding of [src/cypherantic/__init__.py].  Python values,
    dictionaries and exceptions are modelled first, then the schema
    declarations read from pydantic classes, the module-level constraint
    cache together with the trace of [session.run] calls, and finally the
    module's functions in the order of the source file. *)

From stdpp Require Import gmap strings list.
From Stdlib Require Import ZArith.

Open Scope string_scope.

(** ** Exceptions *)

(** The exception classes the module defines or meets.  [ForeignError] stands
    for whatever the driver raises from [session.run]. *)
Inductive ExcClass :=
| BaseException
| Exception
| ValueError
| TypeError
| LookupError
| KeyError
| IndexError
| AttributeError
| NameError
| CypheranticError
| InvalidValueError
| InvalidRelationshipError
| ForeignError (name : string).

#[global] Instance ExcClass_eq_dec : EqDecision ExcClass.
Proof. solve_decision. Defined.

(** The [class C(B1, B2)] headers. *)
Definition bases (c : ExcClass) : list ExcClass :=
  match c with
  | BaseException => []
  | Exception => [BaseException]
  | ValueError | TypeError | LookupError | AttributeError | NameError =>
      [Exception]
  | KeyError | IndexError => [LookupError]
  | CypheranticError => [Exception]
  | InvalidValueError => [CypheranticError; ValueError]
  | InvalidRelationshipError => [InvalidValueError]
  | ForeignError _ => [Exception]
  end.

Fixpoint issubclass_upto (depth : nat) (c d : ExcClass) : bool :=
  if decide (c = d) then true
  else match depth with
       | O => false
       | S depth' => existsb (fun b => issubclass_upto depth' b d) (bases c)
       end.

(** No chain of [bases] is longer than four links. *)
Definition issubclass (c d : ExcClass) : bool := issubclass_upto 4 c d.

Record PyErr := mkErr { exc_type : ExcClass; exc_msg : string }.

(** [except d:] catches [e]. *)
Definition caught_by (d : ExcClass) (e : PyErr) : bool :=
  issubclass (exc_type e) d.

Inductive Outcome (A : Type) :=
| Return (a : A)
| Raise (e : PyErr).
Arguments Return {A} a.
Arguments Raise {A} e.

(** ** Values and dictionaries *)

(** What a model attribute, a query parameter or a record column can hold.
    [VObject] is any object that is not JSON data: a datetime, a node or
    relationship handle, a model instance, an edge tuple. *)
#[warnings="-register-all"]
Inductive Value :=
| VNone
| VBool (b : bool)
| VInt (n : Z)
| VStr (s : string)
| VList (items : list Value)
| VDict (items : list (string * Value))
| VObject (type_name : string) (attrs : list (string * Value)).

(** A Python [dict] with string keys: insertion-ordered, keys unique. *)
Definition Dict (V : Type) := list (string * V).

Fixpoint dict_get {V} (d : Dict V) (k : string) : option V :=
  match d with
  | [] => None
  | (k', v) :: d' => if decide (k' = k) then Some v else dict_get d' k
  end.

(** [d[k] = v]: overwrite in place, or append a new key. *)
Fixpoint dict_set {V} (d : Dict V) (k : string) (v : V) : Dict V :=
  match d with
  | [] => [(k, v)]
  | (k', v') :: d' =>
      if decide (k' = k) then (k', v) :: d' else (k', v') :: dict_set d' k v
  end.

(** [sep.join(parts)] *)
Definition join (sep : string) (parts : list string) : string :=
  String.concat sep parts.

(** The text between double quote characters. *)
Definition quoted (s : string) : string :=
  let dq := String (Ascii.Ascii false true false false false true false false)
                   EmptyString in
  dq +:+ s +:+ dq.

(** [json.dumps] succeeds on JSON data only; any other object makes it raise
    [TypeError]. *)
Fixpoint json_serializable (v : Value) : bool :=
  match v with
  | VNone | VBool _ | VInt _ | VStr _ => true
  | VList items => forallb json_serializable items
  | VDict items => forallb (fun kv => json_serializable (snd kv)) items
  | VObject _ _ => false
  end.

(** ** Schema declarations *)

(** [cypherantic_config]: a [NodeConfig] or a [RelationshipConfig], both
    TypedDicts whose keys may be missing. *)
Record Config := {
  cfg_labels : option (list string);
  cfg_rel_type : option string
}.

(** [Field(unique=...)], [Relationship(rel_type=..., direction=...)], or any
    other object found in a field's [metadata]. *)
Inductive Metadata :=
| Field (unique : bool)
| Relationship (rel_type : string) (direction : string)
| OtherMetadata.

(** A type hint as [_validate_edge_type] tests it: a class deriving from
    pydantic's [BaseModel], which carries its [model_validate]; another
    class; or an object that is no class (a generic alias, a union), on
    which [issubclass] itself raises. *)
Inductive TypeHint :=
| BaseModelSubclass (validate : Value -> Outcome Value)
| NotAModel
| NotAClass.

(** A class as [_validate_edge_type] sees it.  [typing.get_type_hints(tp)]
    returns the hints or raises (a [NameError] on a forward reference it
    cannot resolve), and [inspect.signature(tp)] returns the signature, of
    which the parameter names are kept, or raises (a [ValueError] when no
    signature is found). *)
Record EdgeCls := {
  edge_name : string;
  get_type_hints : Outcome (Dict TypeHint);
  signature_parameters : Outcome (list string)
}.

(** [typing.get_origin] of an annotation, when there is one. *)
Record Origin := {
  origin_is_class : bool;
  origin_is_sequence : bool
}.

Record FieldInfo := {
  get_origin : option Origin;
  get_args : list EdgeCls;
  metadata : list Metadata
}.

(** A pydantic model class.  [cls_id] is the identity of the class object,
    which is what set membership in [_known_constraints] compares; two
    classes may share a [__name__].  [cypherantic_config] is [None] when the
    class has no such attribute. *)
Record ModelCls := {
  cls_id : nat;
  __name__ : string;
  cypherantic_config : option Config;
  model_fields : Dict FieldInfo;
  model_validate : Value -> Outcome Value
}.

(** A model instance: its class and its attribute values. *)
Record Model := {
  type : ModelCls;
  attrs : Dict Value
}.

(** [model.model_dump(mode='python')] *)
Definition model_dump (model : Model) : Dict Value := attrs model.

Definition is_unique_Field (md : Metadata) : bool :=
  match md with
  | Field unique => unique
  | _ => false
  end.

Definition is_Relationship (md : Metadata) : bool :=
  match md with
  | Relationship _ _ => true
  | _ => false
  end.

(** ** The session and the process state *)

Definition Record_ := Dict Value.
Definition AsyncResult := list Record_.

Record Statement := mkStatement {
  query : string;
  parameters : Dict Value
}.

(** The caller's session.  [run] may depend on every statement run before;
    it returns the rows of the result stream or raises. *)
Record SessionType := {
  is_AsyncTransaction : bool;
  run : list Statement -> string -> Dict Value -> Outcome AsyncResult
}.

(** The module-level [_known_constraints] set and the calls made to
    [session.run] so far, oldest first. *)
Record World := mkWorld {
  _known_constraints : gset nat;
  call_args_list : list Statement
}.

Definition initial_world : World := mkWorld ∅ [].

(** An [async def] body: it reads and updates the process state and either
    returns or raises. *)
Definition Async (A : Type) : Type := World -> Outcome A * World.

#[global] Instance Async_ret : MRet Async :=
  fun A a w => (Return a, w).

#[global] Instance Async_bind : MBind Async :=
  fun A B f m w =>
    match m w with
    | (Return a, w') => f a w'
    | (Raise e, w') => (Raise e, w')
    end.

Definition raise {A} (c : ExcClass) (msg : string) : Async A :=
  fun w => (Raise (mkErr c msg), w).

Definition lift {A} (o : Outcome A) : Async A :=
  fun w => (o, w).

Definition known_constraints : Async (gset nat) :=
  fun w => (Return (_known_constraints w), w).

Definition known_constraints_add (model_cls : ModelCls) : Async unit :=
  fun w => (Return tt,
            mkWorld ({[cls_id model_cls]} ∪ _known_constraints w)
                    (call_args_list w)).

(** [await session.run(query, **parameters)] *)
Definition session_run (session : SessionType) (q : string)
    (params : Dict Value) : Async AsyncResult :=
  fun w => (run session (call_args_list w) q params,
            mkWorld (_known_constraints w)
                    (call_args_list w ++ [mkStatement q params])%list).

(** [await result.single()] *)
Definition single (result : AsyncResult) : option Record_ := head result.

(** [record[0]] *)
Definition record_first (record : Record_) : Outcome Value :=
  match record with
  | (_, v) :: _ => Return v
  | [] => Raise (mkErr IndexError "tuple index out of range")
  end.

(** [record[key]] *)
Definition record_item (record : Record_) (key : string) : Outcome Value :=
  match dict_get record key with
  | Some v => Return v
  | None => Raise (mkErr KeyError key)
  end.

(** [getattr(model, field)] *)
Definition getattr (model : Model) (field : string) : Outcome Value :=
  match dict_get (attrs model) field with
  | Some v => Return v
  | None => Raise (mkErr AttributeError field)
  end.

(** [{field: getattr(model, field) for field in key_fields}] *)
Fixpoint getattr_dict (model : Model) (key_fields : list string)
    (acc : Dict Value) : Outcome (Dict Value) :=
  match key_fields with
  | [] => Return acc
  | field :: rest =>
      match getattr model field with
      | Return v => getattr_dict model rest (dict_set acc field v)
      | Raise e => Raise e
      end
  end.

(** ** The module's functions *)

(** [unwrap_node_as(model_cls, node)] *)
Definition unwrap_node_as (model_cls : ModelCls) (node : option Value)
    : Outcome Value :=
  match node with
  | None => Raise (mkErr InvalidValueError "No record to unwrap")
  | Some n => model_validate model_cls n
  end.

(** [unwrap_result_as_node(model_cls, result)].  A column holding Python's
    [None] is an absent node. *)
Definition unwrap_result_as_node (model_cls : ModelCls)
    (result : AsyncResult) : Outcome Value :=
  match single result with
  | None => Raise (mkErr InvalidValueError "Record is empty")
  | Some record =>
      if bool_decide (length record = 0)
      then Raise (mkErr InvalidValueError "Record is empty")
      else if negb (bool_decide (length record = 1))
      then Raise (mkErr InvalidValueError "Too many nodes in record")
      else match record_first record with
           | Return VNone => unwrap_node_as model_cls None
           | Return v => unwrap_node_as model_cls (Some v)
           | Raise e => Raise e
           end
  end.

(** [_instrumented_run(session, query, **parameters)]: the second debug
    line passes [json.dumps(parameters)] as its argument, so the parameters
    are serialised, whatever the log level, before the session is called.
    The message of the [TypeError] is shortened. *)
Definition _instrumented_run (session : SessionType) (q : string)
    (params : Dict Value) : Async AsyncResult :=
  if json_serializable (VDict params)
  then session_run session q params
  else raise TypeError "Object is not JSON serializable".

(** [_extract_labels(model_cls)].  At import time this function,
    [_extract_key_fields], [_build_match_clause] and [_validate_edge_type]
    are wrapped in [functools.cache]; they read class declarations only, so
    the wrapped functions return what these return. *)
Definition _extract_labels (model_cls : ModelCls) : list string :=
  let config := default (Build_Config None None)
                        (cypherantic_config model_cls) in
  match cfg_labels config with
  | Some labels => labels
  | None => [__name__ model_cls]
  end.

(** [_extract_key_fields(model_cls)]: the two nested loops, appending the
    field name once per unique [Field] found in its metadata. *)
Definition _extract_key_fields (model_cls : ModelCls) : list string :=
  foldl (fun (key_fields : list string)
           '((field_name, field_info) : string * FieldInfo) =>
           foldl (fun (key_fields : list string) md =>
                    if is_unique_Field md
                    then (key_fields ++ [field_name])%list
                    else key_fields)
                 key_fields (metadata field_info))
        [] (model_fields model_cls).

(** [_build_match_clause(model_cls, param_alias)] *)
Definition _build_match_clause (model_cls : ModelCls)
    (param_alias : string) : string :=
  let match_props : Dict string :=
    foldl (fun (d : Dict string) field =>
             dict_set d field ("$" +:+ param_alias +:+ "." +:+ field))
          [] (_extract_key_fields model_cls) in
  match match_props with
  | [] => EmptyString
  | _ :: _ =>
      "{" +:+ join "," (map (fun '(key, value) => key +:+ ":" +:+ value)
                            match_props) +:+ "}"
  end.

(** [_ensure_constraints(session, model_cls, node_labels)] *)
Definition _ensure_constraints (session : SessionType)
    (model_cls : ModelCls) (node_labels : list string) : Async unit :=
  if is_AsyncTransaction session then mret tt
  else
    known ← known_constraints;
    match node_labels with
    | [] => mret tt
    | first_label :: _ =>
        if bool_decide (cls_id model_cls ∈ known) then mret tt
        else
          let unique_constraints :=
            foldl (fun (unique_constraints : list string)
                       '((field_name, field_info) : string * FieldInfo) =>
                     foldl (fun (unique_constraints : list string) md =>
                              if is_unique_Field md
                              then (unique_constraints ++ [field_name])%list
                              else unique_constraints)
                           unique_constraints (metadata field_info))
                  [] (model_fields model_cls) in
          match unique_constraints with
          | [] => mret tt
          | _ :: _ =>
              let constraint_name := __name__ model_cls +:+ "_unique" in
              let props :=
                join ", " (map (fun prop => "n." +:+ prop)
                               unique_constraints) in
              let q :=
                "CREATE CONSTRAINT " +:+ constraint_name
                +:+ " IF NOT EXISTS " +:+ "FOR (n:" +:+ first_label
                +:+ ") REQUIRE (" +:+ props +:+ ") IS UNIQUE" in
              _instrumented_run session q [] ≫= fun _ => mret tt
          end;;
          known_constraints_add model_cls
    end.

(** The loop of [create_node] that fills [properties]: a field is kept
    unless its metadata holds a [Relationship] (the [for ... else]). *)
Fixpoint node_properties (model_cls : ModelCls) (items : Dict Value)
    (properties : Dict Value) : Outcome (Dict Value) :=
  match items with
  | [] => Return properties
  | (field_name, field_value) :: rest =>
      match dict_get (model_fields model_cls) field_name with
      | None => Raise (mkErr KeyError field_name)
      | Some field_info =>
          if existsb is_Relationship (metadata field_info)
          then node_properties model_cls rest properties
          else node_properties model_cls rest
                 (dict_set properties field_name field_value)
      end
  end.

(** [create_node(session, model)].  The config is read through the
    instance, which finds the class attribute; the labels are resolved here
    and not through [_extract_labels]. *)
Definition create_node (session : SessionType) (model : Model)
    : Async Value :=
  let model_cls := type model in
  let config := default (Build_Config None None)
                        (cypherantic_config model_cls) in
  let node_labels :=
    match cfg_labels config with
    | Some labels => labels
    | None => [__name__ model_cls]
    end in
  known ← known_constraints;
  (if bool_decide (cls_id model_cls ∈ known) then mret tt
   else _ensure_constraints session model_cls node_labels);;
  properties ← lift (node_properties model_cls (model_dump model) []);
  let q := "CREATE (n:" +:+ join "&" node_labels
           +:+ " $properties) RETURN n" in
  result ← _instrumented_run session q [("properties", VDict properties)];
  match single result with
  | None => raise CypheranticError "Failed to create node"
  | Some record => lift (record_first record)
  end.

(** [_validate_edge_type(tp)]: the pair returned holds the two hinted
    classes, used afterwards only through their [model_validate].  The two
    library calls are not guarded, so what they raise is what the function
    raises. *)
Definition _validate_edge_type (tp : EdgeCls)
    : Outcome ((Value -> Outcome Value) * (Value -> Outcome Value)) :=
  match get_type_hints tp with
  | Raise e => Raise e
  | Return type_info =>
      match dict_get type_info "node", dict_get type_info "properties" with
      | Some node_hint, Some properties_hint =>
          match node_hint with
          | NotAClass =>
              Raise (mkErr TypeError "issubclass() arg 1 must be a class")
          | NotAModel =>
              Raise (mkErr TypeError
                (quoted "node"
                 +:+ " attribute must be a pydantic BaseModel subclass"))
          | BaseModelSubclass target_validate =>
              match properties_hint with
              | NotAClass =>
                  Raise (mkErr TypeError
                           "issubclass() arg 1 must be a class")
              | NotAModel =>
                  Raise (mkErr TypeError
                    (quoted "properties"
                     +:+ " attribute must be a pydantic BaseModel subclass"))
              | BaseModelSubclass prop_validate =>
                  match signature_parameters tp with
                  | Raise e => Raise e
                  | Return sig =>
                      if bool_decide ("node" ∈ sig)
                         && bool_decide ("properties" ∈ sig)
                      then Return (target_validate, prop_validate)
                      else Raise (mkErr TypeError
                        ("Edge type must have " +:+ quoted "node"
                         +:+ " and " +:+ quoted "properties"
                         +:+ " parameters in its initializer"))
                  end
              end
          end
      | _, _ =>
          Raise (mkErr TypeError
            ("Edge type must have " +:+ quoted "node" +:+ " and "
             +:+ quoted "properties" +:+ " attributes"))
      end
  end.

(** [create_relationship(session, from_node, to_node, rel_props, rel_type)];
    an argument left out is [None]. *)
Definition create_relationship (session : SessionType)
    (from_node to_node : Model) (rel_props : option Model)
    (rel_type : option string) : Async Value :=
  rel_name ←
    match rel_type, rel_props with
    | Some rel_type, _ => mret rel_type
    | None, Some rel_props =>
        let rel_cls := type rel_props in
        let config := default (Build_Config None None)
                              (cypherantic_config rel_cls) in
        mret (default (__name__ rel_cls) (cfg_rel_type config))
    | None, None =>
        raise CypheranticError "Either rel_cls or rel_type must be provided"
    end;
  let from_node_cls := type from_node in
  let to_node_cls := type to_node in
  let parameters : Dict Value :=
    [("from_node_props", VDict []); ("rel_name", VStr rel_name);
     ("rel_props", VDict []); ("to_node_props", VDict [])] in
  let source_labels := join "&" (_extract_labels from_node_cls) in
  let target_labels := join "&" (_extract_labels to_node_cls) in
  parameters ←
    match _extract_key_fields from_node_cls with
    | [] => mret parameters
    | key_fields =>
        props ← lift (getattr_dict from_node key_fields []);
        mret (dict_set parameters "from_node_props" (VDict props))
    end;
  parameters ←
    match _extract_key_fields to_node_cls with
    | [] => mret parameters
    | key_fields =>
        props ← lift (getattr_dict to_node key_fields []);
        mret (dict_set parameters "to_node_props" (VDict props))
    end;
  let parameters :=
    match rel_props with
    | Some rel_props =>
        dict_set parameters "rel_props" (VDict (model_dump rel_props))
    | None => parameters
    end in
  let source_match := _build_match_clause from_node_cls "from_node_props" in
  let target_match := _build_match_clause to_node_cls "to_node_props" in
  result ← _instrumented_run session
    ("MATCH (a:" +:+ source_labels +:+ " " +:+ source_match +:+ ")"
     +:+ " WITH a "
     +:+ "MATCH (b:" +:+ target_labels +:+ " " +:+ target_match +:+ ")"
     +:+ " CREATE (a)-[r:$($rel_name) $rel_props]->(b)"
     +:+ " RETURN r")
    parameters;
  match single result with
  | None => raise CypheranticError "Failed to create relationship"
  | Some record => lift (record_first record)
  end.

(** The [async for record in result] loop of
    [retrieve_relationship_edges]; [tuple_cls(node=..., properties=...)]
    builds the edge object. *)
Fixpoint hydrate_edges (tuple_cls : EdgeCls)
    (target_validate prop_validate : Value -> Outcome Value)
    (result : AsyncResult) (results : list Value) : Outcome (list Value) :=
  match result with
  | [] => Return results
  | record :: rest =>
      match record_item record "r" with
      | Raise e => Raise e
      | Return r =>
          match prop_validate r with
          | Raise e => Raise e
          | Return rel_instance =>
              match record_item record "b" with
              | Raise e => Raise e
              | Return b =>
                  match target_validate b with
                  | Raise e => Raise e
                  | Return node_instance =>
                      hydrate_edges tuple_cls target_validate prop_validate
                        rest
                        (results ++
                         [VObject (edge_name tuple_cls)
                            [("node", node_instance);
                             ("properties", rel_instance)]])%list
                  end
              end
          end
      end
  end.

(** [retrieve_relationship_edges(session, model, rel_name, direction,
    edge_cls)]; [direction] is the string the caller passes. *)
Definition retrieve_relationship_edges (session : SessionType)
    (model : Model) (rel_name : string) (direction : string)
    (edge_cls : EdgeCls) : Async (list Value) :=
  let tuple_cls := edge_cls in
  '(target_validate, prop_validate) ← lift (_validate_edge_type edge_cls);
  let parameters : Dict Value :=
    [("from_node_props", VDict []); ("rel_name", VStr rel_name)] in
  let source_labels := join "&" (_extract_labels (type model)) in
  parameters ←
    match _extract_key_fields (type model) with
    | [] => mret parameters
    | key_fields =>
        props ← lift (getattr_dict model key_fields []);
        mret (dict_set parameters "from_node_props" (VDict props))
    end;
  let source_match := _build_match_clause (type model) "from_node_props" in
  let q :=
    if decide (direction = "INCOMING")
    then "MATCH (b)-[r:$($rel_name)]->(a:" +:+ source_labels +:+ " "
         +:+ source_match +:+ ")" +:+ " RETURN r, b"
    else if decide (direction = "OUTGOING")
    then "MATCH (a:" +:+ source_labels +:+ " " +:+ source_match
         +:+ ")-[r:$($rel_name)]->(b)" +:+ " RETURN r, b"
    else "MATCH (a:" +:+ source_labels +:+ " " +:+ source_match
         +:+ ")-[r:$($rel_name)]-(b)" +:+ " RETURN r, b" in
  result ← _instrumented_run session q parameters;
  lift (hydrate_edges tuple_cls target_validate prop_validate result []).

(** [setattr(model, name, value)] *)
Definition setattr (model : Model) (name : string) (value : Value) : Model :=
  {| type := type model; attrs := dict_set (attrs model) name value |}.

(** [refresh_relationship(session, model, rel_property)]; the model is
    mutated in place, so the updated instance is what is returned here. *)
Definition refresh_relationship (session : SessionType) (model : Model)
    (rel_property : string) : Async Model :=
  let model_cls := type model in
  match dict_get (model_fields model_cls) rel_property with
  | None =>
      raise InvalidValueError
        ("Relation " +:+ rel_property +:+ " does not exist")
  | Some field =>
      match get_origin field with
      | None =>
          raise InvalidRelationshipError
            ("Missing or incorrect generic type for " +:+ rel_property)
      | Some origin =>
          if negb (origin_is_class origin)
          then raise TypeError "issubclass() arg 1 must be a class"
          else if negb (origin_is_sequence origin)
          then raise InvalidRelationshipError
                 ("Relation " +:+ rel_property +:+ " is not a sequence")
          else
            let anno_args := get_args field in
            let rel_data := List.filter is_Relationship (metadata field) in
            match rel_data with
            | [Relationship rel_type direction] =>
                match anno_args with
                | [] => raise IndexError "tuple index out of range"
                | edge_cls :: _ =>
                    results ← retrieve_relationship_edges session model
                                rel_type direction edge_cls;
                    mret (setattr model rel_property (VList results))
                end
            | _ =>
                raise InvalidRelationshipError
                  ("Missing or incorrect Relationship for " +:+ rel_property)
            end
      end
  end.

(** ** Vocabulary of the statements *)

(** The keys a dict comprehension over [fields] ends up with: each name
    once, at the place of its first occurrence. *)
Definition distinct_in_order (fields : list string) : list string :=
  foldl (fun (seen : list string) field =>
           if bool_decide (field ∈ seen) then seen
           else (seen ++ [field])%list)
        [] fields.

(** The label list a class declares, if it declares one. *)
Definition declared_labels (model_cls : ModelCls) : option (list string) :=
  cypherantic_config model_cls ≫= cfg_labels.

(** The relationship name a class declares, if it declares one. *)
Definition declared_rel_type (model_cls : ModelCls) : option string :=
  cypherantic_config model_cls ≫= cfg_rel_type.

(** The statement [_ensure_constraints] sends for a class whose first label
    is [first_label]. *)
Definition constraint_statement (model_cls : ModelCls)
    (first_label : string) : Statement :=
  mkStatement
    ("CREATE CONSTRAINT " +:+ (__name__ model_cls +:+ "_unique")
     +:+ " IF NOT EXISTS " +:+ "FOR (n:" +:+ first_label
     +:+ ") REQUIRE ("
     +:+ join ", " (map (fun prop => "n." +:+ prop)
                        (_extract_key_fields model_cls))
     +:+ ") IS UNIQUE")
    [].

(** The statement [create_node] sends to create the node. *)
Definition node_statement (model : Model) (properties : Dict Value)
    : Statement :=
  mkStatement
    ("CREATE (n:" +:+ join "&" (_extract_labels (type model))
     +:+ " $properties) RETURN n")
    [("properties", VDict properties)].

(** One more call recorded. *)
Definition called (w : World) (st : Statement) : World :=
  mkWorld (_known_constraints w) (call_args_list w ++ [st])%list.

(** One more class in the cache. *)
Definition cached (w : World) (model_cls : ModelCls) : World :=
  mkWorld ({[cls_id model_cls]} ∪ _known_constraints w) (call_args_list w).

(** As the test-suite recognises a constraint statement in the calls made
    to the session. *)
Definition is_constraint_statement (st : Statement) : bool :=
  String.prefix "CREATE CONSTRAINT" (query st).

(** The state after a sequence of [create_node] calls, each awaited in turn
    whether it returned or raised. *)
Fixpoint create_nodes (calls : list (SessionType * Model)) (w : World)
    : World :=
  match calls with
  | [] => w
  | (session, model) :: rest =>
      create_nodes rest (snd (create_node session model w))
  end.

(** The second half of [create_node], from the property loop on: what the
    call does once the constraint has been seen to. *)
Definition send_node_statement (session : SessionType) (model : Model)
    : Async Value :=
  fun w1 =>
    match node_properties (type model) (model_dump model) [] with
    | Raise e => (Raise e, w1)
    | Return properties =>
        let st := node_statement model properties in
        if json_serializable (VDict properties)
        then match run session (call_args_list w1) (query st)
                       (parameters st) with
             | Raise e => (Raise e, called w1 st)
             | Return result =>
                 match single result with
                 | None =>
                     (Raise (mkErr CypheranticError "Failed to create node"),
                      called w1 st)
                 | Some record => (record_first record, called w1 st)
                 end
             end
        else (Raise (mkErr TypeError "Object is not JSON serializable"), w1)
    end.

(** The name [create_relationship] is asked to use, in the words of its
    contract: the explicit name, else the name the properties class
    declares, else the name of that class. *)
Definition resolved_rel_name (rel_type : option string)
    (rel_props : option Model) : option string :=
  match rel_type, rel_props with
  | Some name, _ => Some name
  | None, Some props =>
      Some (default (__name__ (type props)) (declared_rel_type (type props)))
  | None, None => None
  end.

(** The parameters [retrieve_relationship_edges] binds. *)
Definition retrieval_parameters (props : Dict Value) (rel_name : string)
    : Dict Value :=
  [("from_node_props", VDict props); ("rel_name", VStr rel_name)].

(** A relationship field that [refresh_relationship] rejects: the field is
    missing, or its annotation has no generic origin, or the origin is a
    class that is no sequence, or the metadata does not hold exactly one
    [Relationship]. *)
Definition malformed_relationship (model_cls : ModelCls)
    (rel_property : string) : Prop :=
  match dict_get (model_fields model_cls) rel_property with
  | None => True
  | Some field =>
      match get_origin field with
      | None => True
      | Some origin =>
          origin_is_class origin = true
          /\ (origin_is_sequence origin = false
              \/ length (List.filter is_Relationship (metadata field)) <> 1)
      end
  end.

(** Whether the class declares [field_name] with a [Relationship] in its
    metadata. *)
Definition is_relationship_field (model_cls : ModelCls)
    (field_name : string) : bool :=
  match dict_get (model_fields model_cls) field_name with
  | Some field_info => existsb is_Relationship (metadata field_info)
  | None => false
  end.

(** The key-field names one declared field contributes: its name, once per
    unique [Field] in its metadata. *)
Definition unique_markers (item : string * FieldInfo) : list string :=
  map (fun _ => item.1) (List.filter is_unique_Field (metadata item.2)).

(** What [create_node] and [create_relationship] make of the answer to
    their statement: the error the session raised, or the error [msg] when
    the stream holds no row, or the first column of the first row. *)
Definition first_column_or (msg : string) (answer : Outcome AsyncResult)
    : Outcome Value :=
  match answer with
  | Raise e => Raise e
  | Return result =>
      match single result with
      | None => Raise (mkErr CypheranticError msg)
      | Some record => record_first record
      end
  end.

(** The statement [create_relationship] sends. *)
Definition relationship_statement (from_node to_node : Model)
    (rel_props : option Model) (name : string)
    (from_props to_props : Dict Value) : Statement :=
  mkStatement
    ("MATCH (a:" +:+ join "&" (_extract_labels (type from_node)) +:+ " "
     +:+ _build_match_clause (type from_node) "from_node_props"
     +:+ ") WITH a MATCH (b:"
     +:+ join "&" (_extract_labels (type to_node)) +:+ " "
     +:+ _build_match_clause (type to_node) "to_node_props"
     +:+ ") CREATE (a)-[r:$($rel_name) $rel_props]->(b) RETURN r")
    [("from_node_props", VDict from_props);
     ("rel_name", VStr name);
     ("rel_props", VDict (from_option model_dump [] rel_props));
     ("to_node_props", VDict to_props)].

(** One row of a retrieval turned into an edge: column [r] validated as
    the properties, column [b] as the node. *)
Definition hydrated (tuple_cls : EdgeCls)
    (target_validate prop_validate : Value -> Outcome Value)
    (record : Record_) (edge : Value) : Prop :=
  exists r b rel_instance node_instance,
    dict_get record "r" = Some r
    /\ prop_validate r = Return rel_instance
    /\ dict_get record "b" = Some b
    /\ target_validate b = Return node_instance
    /\ edge = VObject (edge_name tuple_cls)
                [("node", node_instance); ("properties", rel_instance)].

(** An [async def] body that leaves the constraint cache alone and calls
    [session.run] at most [n] times, never with a constraint statement. *)
Definition sends_at_most {A} (n : nat) (m : Async A) : Prop :=
  forall w,
    _known_constraints (snd (m w)) = _known_constraints w
    /\ exists sts,
         call_args_list (snd (m w)) = (call_args_list w ++ sts)%list
         /\ length sts <= n
         /\ Forall (fun st => is_constraint_statement st = false) sts.

(** The ways the first half of [create_node] can go. *)
Inductive EnsurePhase (session : SessionType) (model_cls : ModelCls)
    (w : World) : Outcome unit * World -> Prop :=
| phase_skipped :
    is_AsyncTransaction session = true
    \/ cls_id model_cls ∈ _known_constraints w
    \/ _extract_labels model_cls = [] ->
    EnsurePhase session model_cls w (Return tt, w)
| phase_nothing_unique first_label more_labels :
    is_AsyncTransaction session = false ->
    cls_id model_cls ∉ _known_constraints w ->
    _extract_labels model_cls = first_label :: more_labels ->
    _extract_key_fields model_cls = [] ->
    EnsurePhase session model_cls w (Return tt, cached w model_cls)
| phase_constraint_created first_label more_labels result :
    is_AsyncTransaction session = false ->
    cls_id model_cls ∉ _known_constraints w ->
    _extract_labels model_cls = first_label :: more_labels ->
    _extract_key_fields model_cls <> [] ->
    run session (call_args_list w)
        (query (constraint_statement model_cls first_label)) []
    = Return result ->
    EnsurePhase session model_cls w
      (Return tt,
       cached (called w (constraint_statement model_cls first_label))
              model_cls)
| phase_constraint_failed first_label more_labels e :
    is_AsyncTransaction session = false ->
    cls_id model_cls ∉ _known_constraints w ->
    _extract_labels model_cls = first_label :: more_labels ->
    _extract_key_fields model_cls <> [] ->
    run session (call_args_list w)
        (query (constraint_statement model_cls first_label)) []
    = Raise e ->
    EnsurePhase session model_cls w
      (Raise e, called w (constraint_statement model_cls first_label)).

(** ** Sample declarations *)

Definition accept : Value -> Outcome Value := Return.

Definition unique_str : FieldInfo :=
  {| get_origin := None; get_args := []; metadata := [Field true] |}.

Definition plain_str : FieldInfo :=
  {| get_origin := None; get_args := []; metadata := [] |}.

(** [class Person(BaseModel): name: Annotated[str, Field(unique=True)]] *)
Definition Person : ModelCls :=
  {| cls_id := 1; __name__ := "Person"; cypherantic_config := None;
     model_fields := [("name", unique_str)]; model_validate := accept |}.

(** [class Keyed(BaseModel): k: Annotated[str, Field(unique=True)]] *)
Definition Keyed : ModelCls :=
  {| cls_id := 2; __name__ := "Keyed"; cypherantic_config := None;
     model_fields := [("k", unique_str)]; model_validate := accept |}.

(** A class declaring [cypherantic_config = {'labels': []}] and one unique
    field. *)
Definition Unlabelled : ModelCls :=
  {| cls_id := 3; __name__ := "Unlabelled";
     cypherantic_config := Some (Build_Config (Some []) None);
     model_fields := [("name", unique_str)]; model_validate := accept |}.

(** [class Employment(RelationshipModel)] with
    [cypherantic_config = {'rel_type': 'WORKS_AT'}]. *)
Definition Employment : ModelCls :=
  {| cls_id := 4; __name__ := "Employment";
     cypherantic_config := Some (Build_Config None (Some "WORKS_AT"));
     model_fields := [("role", plain_str)]; model_validate := accept |}.

Definition alice : Model :=
  {| type := Person; attrs := [("name", VStr "Alice")] |}.
Definition bob : Model :=
  {| type := Person; attrs := [("name", VStr "Bob")] |}.
Definition unlabelled_1 : Model :=
  {| type := Unlabelled; attrs := [("name", VStr "x")] |}.
Definition unlabelled_2 : Model :=
  {| type := Unlabelled; attrs := [("name", VStr "y")] |}.
Definition employment_1 : Model :=
  {| type := Employment; attrs := [("role", VStr "engineer")] |}.

(** [class FriendEdge(NamedTuple): node: Person; properties: Friendship] *)
Definition FriendEdge : EdgeCls :=
  {| edge_name := "FriendEdge";
     get_type_hints := Return [("node", BaseModelSubclass accept);
                               ("properties", BaseModelSubclass accept)];
     signature_parameters := Return ["node"; "properties"] |}.

(** A session answering every statement with one row of one column. *)
Definition mock_session : SessionType :=
  {| is_AsyncTransaction := false;
     run := fun _ _ _ => Return [[("n", VObject "Node" [])]] |}.

(** A session whose result streams hold no row. *)
Definition silent_session : SessionType :=
  {| is_AsyncTransaction := false; run := fun _ _ _ => Return [] |}.

(** A session whose every [run] raises. *)
Definition broken_session : SessionType :=
  {| is_AsyncTransaction := false;
     run := fun _ _ _ => Raise (mkErr (ForeignError "ServiceUnavailable")
                                      "connection lost") |}.

(** An explicit transaction. *)
Definition transaction : SessionType :=
  {| is_AsyncTransaction := true;
     run := fun _ _ _ => Return [[("n", VObject "Node" [])]] |}.

(** [employees: Annotated[list[FriendEdge], Relationship(rel_type='WORKS_FOR',
    direction='INCOMING')]] *)
Definition employees_field : FieldInfo :=
  {| get_origin := Some {| origin_is_class := true;
                           origin_is_sequence := true |};
     get_args := [FriendEdge];
     metadata := [Relationship "WORKS_FOR" "INCOMING"] |}.

(** [class Company(BaseModel)] with a plain [name] and the relationship
    field [employees]. *)
Definition Company : ModelCls :=
  {| cls_id := 6; __name__ := "Company"; cypherantic_config := None;
     model_fields := [("name", plain_str); ("employees", employees_field)];
     model_validate := accept |}.

Definition techcorp : Model :=
  {| type := Company;
     attrs := [("name", VStr "TechCorp"); ("employees", VList [])] |}.

(** [class Event(BaseModel): name: str; occurred_at: datetime] *)
Definition Event : ModelCls :=
  {| cls_id := 7; __name__ := "Event"; cypherantic_config := None;
     model_fields := [("name", plain_str); ("occurred_at", plain_str)];
     model_validate := accept |}.

Definition launch : Model :=
  {| type := Event;
     attrs := [("name", VStr "Launch");
               ("occurred_at", VObject "datetime" [])] |}.

(** A [Person] instance that has lost its [name] attribute. *)
Definition nameless : Model := {| type := Person; attrs := [] |}.

(** A class with no type hints, such as [str]. *)
Definition NotAnEdge : EdgeCls :=
  {| edge_name := "str"; get_type_hints := Return [];
     signature_parameters :=
       Raise (mkErr ValueError "no signature found for builtin type") |}.



(** [members: Annotated[list[str], Relationship(rel_type='MEMBER_OF',
    direction='INCOMING')]] *)
Definition members_field : FieldInfo :=
  {| get_origin := Some {| origin_is_class := true;
                           origin_is_sequence := true |};
     get_args := [NotAnEdge];
     metadata := [Relationship "MEMBER_OF" "INCOMING"] |}.

(** [class Team(BaseModel)] with a plain [name] and the relationship field
    [members], whose element type is no edge class. *)
Definition Team : ModelCls :=
  {| cls_id := 8; __name__ := "Team"; cypherantic_config := None;
     model_fields := [("name", plain_str); ("members", members_field)];
     model_validate := accept |}.

Definition squad : Model :=
  {| type := Team; attrs := [("name", VStr "Red"); ("members", VList [])] |}.

(** A session answering every statement with one row holding a
    relationship [r] and a node [b]. *)
Definition edge_session : SessionType :=
  {| is_AsyncTransaction := false;
     run := fun _ _ _ =>
              Return [[("r", VObject "Relationship" []);
                       ("b", VObject "Node" [])]] |}.

(** A session that accepts constraint statements and raises on any other. *)
Definition schema_only_session : SessionType :=
  {| is_AsyncTransaction := false;
     run := fun _ q _ =>
              if String.prefix "CREATE CONSTRAINT" q then Return []
              else Raise (mkErr (ForeignError "ClientError")
                                "write refused") |}.

(** Unfolds the plumbing of [Async]. *)
Ltac async_unfold :=
  unfold mbind, Async_bind, mret, Async_ret, lift, raise,
    known_constraints, known_constraints_add, session_run, called, cached.

(** * Properties *)

(** ** The exception hierarchy *)

Lemma issubclass_refl (c : ExcClass) : issubclass c c = true.
Proof.
  unfold issubclass. simpl. destruct (decide (c = c)); congruence.
Qed.

Lemma CypheranticError_not_ValueError :
  issubclass CypheranticError ValueError = false.
Proof. reflexivity. Qed.

(** ** Dict comprehensions and the match clause *)

Section Comprehension.
Context {V : Type} (value_of : string -> V).

Let entry (field : string) : string * V := (field, value_of field).

Lemma dict_set_seen (seen : list string) (field : string) :
  field ∈ seen ->
  dict_set (map entry seen) field (value_of field) = map entry seen.
Proof.
  induction seen as [|k seen IH]; intros Hin.
  - inversion Hin.
  - simpl. destruct (decide (k = field)) as [->|Hne]; [reflexivity|].
    f_equal. apply IH. apply elem_of_cons in Hin as [Heq|Hin]; congruence.
Qed.

Lemma dict_set_unseen (seen : list string) (field : string) :
  field ∉ seen ->
  dict_set (map entry seen) field (value_of field)
  = map entry (seen ++ [field])%list.
Proof.
  induction seen as [|k seen IH]; intros Hnotin; [reflexivity|].
  simpl. apply not_elem_of_cons in Hnotin as [Hne Hnotin].
  destruct (decide (k = field)); [congruence|].
  f_equal. apply IH, Hnotin.
Qed.

Lemma comprehension_entries (fields seen : list string) :
  foldl (fun (d : Dict V) field => dict_set d field (value_of field))
        (map entry seen) fields
  = map entry
      (foldl (fun (seen : list string) field =>
                if bool_decide (field ∈ seen) then seen
                else (seen ++ [field])%list)
             seen fields).
Proof.
  revert seen. induction fields as [|f fields IH]; intros seen;
    [reflexivity|].
  simpl. case_bool_decide as Hin.
  - rewrite dict_set_seen by exact Hin. apply IH.
  - rewrite dict_set_unseen by exact Hin. apply IH.
Qed.
End Comprehension.

Lemma distinct_in_order_from (seen fields : list string) :
  NoDup (seen ++ fields)%list ->
  foldl (fun (seen : list string) field =>
           if bool_decide (field ∈ seen) then seen
           else (seen ++ [field])%list)
        seen fields
  = (seen ++ fields)%list.
Proof.
  revert seen. induction fields as [|f fields IH]; intros seen Hnd.
  - simpl. symmetry. apply app_nil_r.
  - simpl. apply NoDup_app in Hnd as Hparts.
    destruct Hparts as (_ & Hdisj & _).
    case_bool_decide as Hin.
    + exfalso. apply (Hdisj f Hin). left.
    + rewrite IH; rewrite <- app_assoc; [reflexivity | exact Hnd].
Qed.

Lemma distinct_in_order_NoDup (fields : list string) :
  NoDup fields -> distinct_in_order fields = fields.
Proof. intros Hnd. apply (distinct_in_order_from [] fields Hnd). Qed.

Lemma build_match_clause_eq (model_cls : ModelCls) (alias : string) :
  _build_match_clause model_cls alias
  = match distinct_in_order (_extract_key_fields model_cls) with
    | [] => EmptyString
    | fields =>
        "{" +:+ join "," (map (fun f => f +:+ ":$" +:+ alias +:+ "." +:+ f)
                              fields) +:+ "}"
    end.
Proof.
  unfold _build_match_clause, distinct_in_order. cbv zeta.
  pose proof (comprehension_entries
                (fun field => "$" +:+ alias +:+ "." +:+ field)
                (_extract_key_fields model_cls) []) as Hkeys.
  cbn [map] in Hkeys. rewrite Hkeys. clear Hkeys.
  destruct (foldl _ [] (_extract_key_fields model_cls)) as [|f fields];
    [reflexivity|].
  cbn [map]. rewrite map_map. reflexivity.
Qed.

(** C3, as the code renders it.  The fragment is empty when the class has no
    key field; otherwise it is [{f1:$alias.f1,f2:$alias.f2,...}], with no
    blank after a colon or a comma, over the key fields in declaration
    order, a field marked unique more than once being listed once.  When no
    field is repeated the list is the key-field list itself. *)
Theorem build_match_clause_renders (model_cls : ModelCls) (alias : string) :
  _build_match_clause model_cls alias
  = match distinct_in_order (_extract_key_fields model_cls) with
    | [] => EmptyString
    | fields =>
        "{" +:+ join "," (map (fun f => f +:+ ":$" +:+ alias +:+ "." +:+ f)
                              fields) +:+ "}"
    end
  /\ (_extract_key_fields model_cls = [] ->
      _build_match_clause model_cls alias = EmptyString)
  /\ (NoDup (_extract_key_fields model_cls) ->
      distinct_in_order (_extract_key_fields model_cls)
      = _extract_key_fields model_cls).
Proof.
  split; [apply build_match_clause_eq|]. split.
  - intros Hnone. rewrite build_match_clause_eq, Hnone. reflexivity.
  - apply distinct_in_order_NoDup.
Qed.

Lemma build_match_clause_renders_witness :
  NoDup (_extract_key_fields Keyed)
  /\ _build_match_clause Keyed "alias" = "{k:$alias.k}"
  /\ distinct_in_order (_extract_key_fields Keyed) = ["k"].
Proof.
  assert (Hnd : NoDup (_extract_key_fields Keyed)).
  { cbn. apply NoDup_singleton. }
  destruct (build_match_clause_renders Keyed "alias") as (Heq & _ & Hsame).
  split; [exact Hnd|]. split.
  - rewrite Heq. reflexivity.
  - rewrite (Hsame Hnd). reflexivity.
Defined.

(** C3 as stated fails: for the single key field [k] the code returns
    [{k:$alias.k}], not [{k: $alias.k}]. *)
Lemma build_match_clause_has_no_blank :
  _extract_key_fields Keyed = ["k"]
  /\ _build_match_clause Keyed "alias" = "{k:$alias.k}"
  /\ _build_match_clause Keyed "alias" <> "{k: $alias.k}".
Proof.
  split; [reflexivity|]. split; [reflexivity|].
  intros Heq. vm_compute in Heq. discriminate Heq.
Qed.

(** ** Unfolding the two halves of [create_node] *)

Lemma instrumented_run_eq (session : SessionType) (q : string)
    (params : Dict Value) (w : World) :
  json_serializable (VDict params) = true ->
  _instrumented_run session q params w
  = (run session (call_args_list w) q params,
     called w (mkStatement q params)).
Proof. intros Hjson. unfold _instrumented_run. rewrite Hjson. reflexivity. Qed.

Lemma ensure_constraints_eq (session : SessionType) (model_cls : ModelCls)
    (node_labels : list string) (w : World) :
  _ensure_constraints session model_cls node_labels w
  = if is_AsyncTransaction session then (Return tt, w)
    else match node_labels with
         | [] => (Return tt, w)
         | first_label :: _ =>
             if bool_decide (cls_id model_cls ∈ _known_constraints w)
             then (Return tt, w)
             else match _extract_key_fields model_cls with
                  | [] => (Return tt, cached w model_cls)
                  | _ :: _ =>
                      let st := constraint_statement model_cls first_label in
                      match run session (call_args_list w) (query st) [] with
                      | Return _ => (Return tt, cached (called w st) model_cls)
                      | Raise e => (Raise e, called w st)
                      end
                  end
         end.
Proof.
  unfold _ensure_constraints, _instrumented_run, constraint_statement,
    _extract_key_fields.
  async_unfold.
  destruct (is_AsyncTransaction session); [reflexivity|].
  destruct node_labels as [|first_label rest]; [reflexivity|].
  cbn [_known_constraints].
  destruct (bool_decide _); [reflexivity|].
  destruct (foldl _ [] (model_fields model_cls)) as [|k ks] eqn:Hkeys;
    [reflexivity|].
  cbn [json_serializable forallb query].
  destruct (run session _ _ _); reflexivity.
Qed.

Lemma create_node_eq (session : SessionType) (model : Model) (w : World) :
  create_node session model w
  = match (if bool_decide (cls_id (type model) ∈ _known_constraints w)
           then (Return tt, w)
           else _ensure_constraints session (type model)
                  (_extract_labels (type model)) w) with
    | (Raise e, w1) => (Raise e, w1)
    | (Return _, w1) => send_node_statement session model w1
    end.
Proof.
  unfold create_node, send_node_statement, _instrumented_run,
    node_statement, _extract_labels.
  async_unfold. cbn [_known_constraints].
  destruct (bool_decide _).
  - destruct (node_properties _ _ _) as [properties|e]; [|reflexivity].
    cbn [json_serializable forallb snd andb query parameters].
    rewrite andb_true_r.
    destruct (forallb _ properties); [|reflexivity].
    destruct (run session _ _ _) as [result|e]; [|reflexivity].
    destruct (single result); reflexivity.
  - destruct (_ensure_constraints _ _ _ w) as [[[]|e] w1]; [|reflexivity].
    destruct (node_properties _ _ _) as [properties|e]; [|reflexivity].
    cbn [json_serializable forallb snd andb query parameters].
    rewrite andb_true_r.
    destruct (forallb _ properties); [|reflexivity].
    destruct (run session _ _ _) as [result|e]; [|reflexivity].
    destruct (single result); reflexivity.
Qed.

Lemma node_statement_not_constraint (model : Model) (properties : Dict Value) :
  is_constraint_statement (node_statement model properties) = false.
Proof. reflexivity. Qed.

Lemma constraint_statement_is_constraint (model_cls : ModelCls)
    (first_label : string) :
  is_constraint_statement (constraint_statement model_cls first_label) = true.
Proof. reflexivity. Qed.

(** What the second half of [create_node] leaves behind: the state as it
    was, or one more call, the node statement, whose result decides the
    outcome.  The cache is left alone. *)
Lemma send_node_statement_trace (session : SessionType) (model : Model)
    (w1 : World) :
  snd (send_node_statement session model w1) = w1
  \/ exists properties,
       let st := node_statement model properties in
       snd (send_node_statement session model w1) = called w1 st
       /\ fst (send_node_statement session model w1)
          = match run session (call_args_list w1) (query st)
                      (parameters st) with
            | Raise e => Raise e
            | Return result =>
                match single result with
                | None =>
                    Raise (mkErr CypheranticError "Failed to create node")
                | Some record => record_first record
                end
            end.
Proof.
  unfold send_node_statement.
  destruct (node_properties _ _ _) as [properties|e]; [|left; reflexivity].
  cbv zeta. destruct (json_serializable _); [|left; reflexivity].
  right. exists properties.
  destruct (run session _ _ _) as [result|e]; [|split; reflexivity].
  destruct (single result); split; reflexivity.
Qed.

(** The first half of [create_node] adds constraint statements only. *)
Lemma ensure_phase_trace (session : SessionType) (model_cls : ModelCls)
    (node_labels : list string) (w : World) :
  exists pre,
    call_args_list
      (snd (if bool_decide (cls_id model_cls ∈ _known_constraints w)
            then (Return tt, w)
            else _ensure_constraints session model_cls node_labels w))
    = (call_args_list w ++ pre)%list
    /\ Forall (fun st => is_constraint_statement st = true) pre.
Proof.
  assert (Hnone : exists pre,
             call_args_list w = (call_args_list w ++ pre)%list
             /\ Forall (fun st => is_constraint_statement st = true) pre).
  { exists []. rewrite app_nil_r. auto. }
  destruct (bool_decide _) eqn:Hknown; [exact Hnone|].
  rewrite ensure_constraints_eq, Hknown.
  destruct (is_AsyncTransaction session); [exact Hnone|].
  destruct node_labels as [|first_label more_labels]; [exact Hnone|].
  destruct (_extract_key_fields model_cls); [exact Hnone|].
  cbv zeta.
  exists [constraint_statement model_cls first_label].
  split; [|repeat constructor].
  destruct (run session _ _ _); reflexivity.
Qed.

(** A class already in the cache: no constraint statement, cache unchanged. *)
Lemma create_node_cached (session : SessionType) (model : Model) (w : World) :
  cls_id (type model) ∈ _known_constraints w ->
  exists sts,
    call_args_list (snd (create_node session model w))
    = (call_args_list w ++ sts)%list
    /\ List.filter is_constraint_statement sts = []
    /\ _known_constraints (snd (create_node session model w))
       = _known_constraints w.
Proof.
  intros Hin. rewrite create_node_eq.
  rewrite bool_decide_eq_true_2 by exact Hin.
  destruct (send_node_statement_trace session model w)
    as [->|(properties & -> & _)].
  - exists []. rewrite app_nil_r. auto.
  - exists [node_statement model properties]. auto.
Qed.

(** A class not yet in the cache, outside a transaction, with a label and a
    unique field: the constraint statement is the next call made; when it
    raises, the error is the outcome and the cache is as before, otherwise
    the class is cached and no further constraint statement follows. *)
Lemma create_node_emits (session : SessionType) (model : Model) (w : World)
    (first_label : string) (more_labels : list string) :
  is_AsyncTransaction session = false ->
  _extract_labels (type model) = first_label :: more_labels ->
  _extract_key_fields (type model) <> [] ->
  cls_id (type model) ∉ _known_constraints w ->
  let st := constraint_statement (type model) first_label in
  match run session (call_args_list w) (query st) [] with
  | Raise e => create_node session model w = (Raise e, called w st)
  | Return _ =>
      exists sts,
        call_args_list (snd (create_node session model w))
        = (call_args_list w ++ st :: sts)%list
        /\ List.filter is_constraint_statement sts = []
        /\ _known_constraints (snd (create_node session model w))
           = {[cls_id (type model)]} ∪ _known_constraints w
  end.
Proof.
  intros Htx Hlabels Hkeys Hnotin st.
  rewrite create_node_eq, ensure_constraints_eq, Htx, Hlabels.
  rewrite bool_decide_eq_false_2 by exact Hnotin.
  destruct (_extract_key_fields (type model)) as [|k ks] eqn:Hk;
    [congruence|].
  cbv zeta. fold st.
  destruct (run session (call_args_list w) (query st) []) as [result|e];
    [|reflexivity].
  destruct (send_node_statement_trace session model
              (cached (called w st) (type model)))
    as [->|(properties & -> & _)].
  - exists []. auto.
  - exists [node_statement model properties]. cbn [snd called cached
      call_args_list _known_constraints]. rewrite <- app_assoc. auto.
Qed.

Lemma create_nodes_cached (model_cls : ModelCls)
    (calls : list (SessionType * Model)) (w : World) :
  cls_id model_cls ∈ _known_constraints w ->
  Forall (fun call => type call.2 = model_cls) calls ->
  exists sts,
    call_args_list (create_nodes calls w) = (call_args_list w ++ sts)%list
    /\ List.filter is_constraint_statement sts = []
    /\ cls_id model_cls ∈ _known_constraints (create_nodes calls w).
Proof.
  revert w. induction calls as [|[session model] calls IH]; intros w Hin Hall.
  - exists []. rewrite app_nil_r. auto.
  - apply Forall_cons in Hall as [Htype Hall]. cbn [snd] in Htype.
    subst model_cls. cbn [create_nodes].
    destruct (create_node_cached session model w Hin)
      as (sts1 & Hlog1 & Hnone1 & Hknown1).
    destruct (IH (snd (create_node session model w))) as
      (sts2 & Hlog2 & Hnone2 & Hknown2); [rewrite Hknown1; exact Hin
                                          | exact Hall |].
    exists (sts1 ++ sts2)%list. split; [|split].
    + rewrite Hlog2, Hlog1. symmetry. apply app_assoc.
    + rewrite List.filter_app, Hnone1, Hnone2. reflexivity.
    + exact Hknown2.
Qed.

(** ** The constraint cache *)

(** C1, as the code behaves.  Take a class with a unique-marked field and a
    non-empty label list that is not yet in the cache, and one or more
    [create_node] calls in a row for instances of it, all on sessions that
    are no transaction.  If the constraint statement of the first call runs
    without raising, then exactly one constraint statement is sent over all
    the calls: the first call sends it and caches the class, and every later
    call finds the class in the cache. *)
Theorem constraint_issued_once (model_cls : ModelCls)
    (first_label : string) (more_labels : list string)
    (session : SessionType) (model : Model)
    (calls : list (SessionType * Model)) (w : World) :
  _extract_key_fields model_cls <> [] ->
  _extract_labels model_cls = first_label :: more_labels ->
  cls_id model_cls ∉ _known_constraints w ->
  Forall (fun call => is_AsyncTransaction call.1 = false
                      /\ type call.2 = model_cls)
         ((session, model) :: calls) ->
  (forall e, run session (call_args_list w)
               (query (constraint_statement model_cls first_label)) []
             <> Raise e) ->
  exists sts,
    call_args_list (create_nodes ((session, model) :: calls) w)
    = (call_args_list w ++ sts)%list
    /\ List.filter is_constraint_statement sts
       = [constraint_statement model_cls first_label]
    /\ cls_id model_cls
         ∈ _known_constraints (snd (create_node session model w)).
Proof.
  intros Hkeys Hlabels Hnotin Hall Hruns.
  apply Forall_cons in Hall as [[Htx Htype] Hall].
  cbn [fst snd] in Htx, Htype. subst model_cls.
  pose proof (create_node_emits session model w first_label more_labels
                Htx Hlabels Hkeys Hnotin) as Hfirst.
  cbv zeta in Hfirst.
  destruct (run session (call_args_list w) _ []) as [result|e] eqn:Hrun;
    [|exfalso; exact (Hruns e eq_refl)].
  destruct Hfirst as (sts1 & Hlog1 & Hnone1 & Hknown1).
  assert (Hin : cls_id (type model)
                  ∈ _known_constraints (snd (create_node session model w))).
  { rewrite Hknown1. apply elem_of_union_l, elem_of_singleton. reflexivity. }
  destruct (create_nodes_cached (type model) calls
              (snd (create_node session model w)) Hin) as
    (sts2 & Hlog2 & Hnone2 & _).
  { eapply Forall_impl; [exact Hall|]. intros call [_ H]. exact H. }
  exists (constraint_statement (type model) first_label :: sts1 ++ sts2)%list.
  split; [|split].
  - cbn [create_nodes]. rewrite Hlog2, Hlog1.
    rewrite <- app_assoc. reflexivity.
  - cbn [List.filter]. rewrite constraint_statement_is_constraint.
    rewrite List.filter_app, Hnone1, Hnone2. reflexivity.
  - exact Hin.
Qed.

(** Two instances of [Person] created on the mock session: one constraint
    statement. *)
Lemma constraint_issued_once_witness :
  exists sts,
    call_args_list (create_nodes [(mock_session, alice); (mock_session, bob)]
                                 initial_world)
    = sts
    /\ List.filter is_constraint_statement sts
       = [constraint_statement Person "Person"].
Proof.
  destruct (constraint_issued_once Person "Person" [] mock_session alice
              [(mock_session, bob)] initial_world)
    as (sts & Hlog & Hone & _).
  - discriminate.
  - reflexivity.
  - cbn. set_solver.
  - repeat constructor.
  - intros e. discriminate.
  - exists sts. split; [exact Hlog | exact Hone].
Defined.

(** C1 as stated fails twice over.  A class with a unique field that
    declares an empty label list never gets a constraint statement; and when
    the session raises on the constraint statement, the next call sends it
    again, so two calls send two. *)
Lemma constraint_not_always_once :
  is_AsyncTransaction mock_session = false
  /\ is_AsyncTransaction broken_session = false
  /\ _extract_key_fields Unlabelled <> []
  /\ _extract_labels Unlabelled = []
  /\ List.filter is_constraint_statement
       (call_args_list
          (create_nodes [(mock_session, unlabelled_1);
                         (mock_session, unlabelled_2)] initial_world))
     = []
  /\ _extract_key_fields Person <> []
  /\ List.filter is_constraint_statement
       (call_args_list
          (create_nodes [(broken_session, alice); (broken_session, bob)]
                        initial_world))
     = [constraint_statement Person "Person";
        constraint_statement Person "Person"].
Proof.
  split; [reflexivity|]. split; [reflexivity|].
  split; [discriminate|]. split; [reflexivity|].
  split; [vm_compute; reflexivity|].
  split; [discriminate|]. vm_compute; reflexivity.
Qed.

(** C4.  When [session.run] raises [e] on the constraint statement,
    [_ensure_constraints] and [create_node] raise that same [e], the
    statement is the only call made, and the cache is what it was, the class
    still absent.  So in any later state with that cache a [create_node]
    call for the same class is not short-circuited: it goes through
    [_ensure_constraints] again, and on a session that is no transaction the
    constraint statement is the next call it makes. *)
Theorem failed_constraint_is_retried (session : SessionType) (model : Model)
    (w : World) (first_label : string) (more_labels : list string)
    (e : PyErr) :
  is_AsyncTransaction session = false ->
  _extract_labels (type model) = first_label :: more_labels ->
  _extract_key_fields (type model) <> [] ->
  cls_id (type model) ∉ _known_constraints w ->
  run session (call_args_list w)
      (query (constraint_statement (type model) first_label)) []
  = Raise e ->
  _ensure_constraints session (type model) (_extract_labels (type model)) w
  = (Raise e, called w (constraint_statement (type model) first_label))
  /\ create_node session model w
     = (Raise e, called w (constraint_statement (type model) first_label))
  /\ _known_constraints
       (called w (constraint_statement (type model) first_label))
     = _known_constraints w
  /\ forall later_session later_model later_w,
       type later_model = type model ->
       _known_constraints later_w = _known_constraints w ->
       create_node later_session later_model later_w
       = match _ensure_constraints later_session (type model)
                 (_extract_labels (type model)) later_w with
         | (Raise e', w1) => (Raise e', w1)
         | (Return _, w1) => send_node_statement later_session later_model w1
         end
       /\ (is_AsyncTransaction later_session = false ->
           exists sts,
             call_args_list
               (snd (create_node later_session later_model later_w))
             = (call_args_list later_w
                ++ constraint_statement (type model) first_label :: sts)%list).
Proof.
  intros Htx Hlabels Hkeys Hnotin Hrun.
  pose proof (create_node_emits session model w first_label more_labels
                Htx Hlabels Hkeys Hnotin) as Hfirst.
  cbv zeta in Hfirst. rewrite Hrun in Hfirst.
  split; [|split; [exact Hfirst|split; [reflexivity|]]].
  - rewrite ensure_constraints_eq, Htx, Hlabels.
    rewrite bool_decide_eq_false_2 by exact Hnotin.
    destruct (_extract_key_fields (type model)); [congruence|].
    cbv zeta. rewrite Hrun. reflexivity.
  - intros later_session later_model later_w Hlater_type Hlater_known.
    rewrite <- Hlater_type in Hlabels, Hkeys, Hnotin |- *.
    rewrite <- Hlater_known in Hnotin.
    split.
    + rewrite create_node_eq.
      rewrite bool_decide_eq_false_2 by exact Hnotin. reflexivity.
    + intros Hlater_tx.
      pose proof (create_node_emits later_session later_model later_w
                    first_label more_labels Hlater_tx Hlabels Hkeys Hnotin)
        as Hagain.
      cbv zeta in Hagain.
      destruct (run later_session _ _ []) as [result|e'].
      * destruct Hagain as (sts & Hlog & _). exists sts. exact Hlog.
      * exists []. rewrite Hagain. reflexivity.
Qed.

(** The broken session raises on the constraint statement for [alice]; the
    mock session, asked next to create [bob], sends it again. *)
Lemma failed_constraint_is_retried_witness :
  create_node broken_session alice initial_world
  = (Raise (mkErr (ForeignError "ServiceUnavailable") "connection lost"),
     called initial_world (constraint_statement Person "Person"))
  /\ exists sts,
       call_args_list
         (snd (create_node mock_session bob
                 (called initial_world
                    (constraint_statement Person "Person"))))
       = (constraint_statement Person "Person"
          :: constraint_statement Person "Person" :: sts).
Proof.
  destruct (failed_constraint_is_retried broken_session alice initial_world
              "Person" []
              (mkErr (ForeignError "ServiceUnavailable") "connection lost"))
    as (_ & Hraise & _ & Hlater).
  - reflexivity.
  - reflexivity.
  - discriminate.
  - cbn. apply not_elem_of_empty.
  - reflexivity.
  - split; [exact Hraise|].
    destruct (Hlater mock_session bob
                (called initial_world (constraint_statement Person "Person"))
                eq_refl eq_refl) as [_ Hsends].
    destruct (Hsends eq_refl) as [sts Hlog].
    exists sts. exact Hlog.
Defined.

(** C9, as the code behaves.  When [_ensure_constraints] skips because the
    session is a transaction or because the label list is empty, nothing is
    sent and the cache is unchanged, also when the skip happens inside
    [create_node].  In any later state with that cache, a [create_node] call
    on a session that is no transaction sends the constraint statement,
    provided the class is not cached, has a unique field and resolves a
    non-empty label list. *)
Theorem skipped_constraint_is_not_cached (session : SessionType)
    (model : Model) (node_labels : list string) (w : World) :
  is_AsyncTransaction session = true \/ node_labels = [] ->
  _ensure_constraints session (type model) node_labels w = (Return tt, w)
  /\ (_extract_labels (type model) = node_labels ->
      _known_constraints (snd (create_node session model w))
      = _known_constraints w)
  /\ forall later_session later_model later_w first_label more_labels,
       is_AsyncTransaction later_session = false ->
       type later_model = type model ->
       _known_constraints later_w = _known_constraints w ->
       cls_id (type model) ∉ _known_constraints w ->
       _extract_key_fields (type model) <> [] ->
       _extract_labels (type model) = first_label :: more_labels ->
       exists sts,
         call_args_list (snd (create_node later_session later_model later_w))
         = (call_args_list later_w
            ++ constraint_statement (type model) first_label :: sts)%list.
Proof.
  intros Hskip.
  assert (Hnoop : _ensure_constraints session (type model) node_labels w
                  = (Return tt, w)).
  { rewrite ensure_constraints_eq.
    destruct Hskip as [-> | ->]; [reflexivity|].
    destruct (is_AsyncTransaction session); reflexivity. }
  split; [exact Hnoop|]. split.
  - intros Hlabels. rewrite create_node_eq, Hlabels, Hnoop.
    destruct (bool_decide _);
      destruct (send_node_statement_trace session model w)
        as [->|(properties & -> & _)]; reflexivity.
  - intros later_session later_model later_w first_label more_labels
      Hlater_tx Hlater_type Hlater_known Hnotin Hkeys Hlabels.
    rewrite <- Hlater_type in Hnotin, Hkeys, Hlabels |- *.
    rewrite <- Hlater_known in Hnotin.
    pose proof (create_node_emits later_session later_model later_w
                  first_label more_labels Hlater_tx Hlabels Hkeys Hnotin)
      as Hemit.
    cbv zeta in Hemit.
    destruct (run later_session _ _ []) as [result|e'].
    + destruct Hemit as (sts & Hlog & _). exists sts. exact Hlog.
    + exists []. rewrite Hemit. reflexivity.
Qed.

(** [alice] created inside a transaction leaves the cache empty; [bob]
    created afterwards on the mock session gets the constraint statement. *)
Lemma skipped_constraint_is_not_cached_witness :
  _known_constraints (snd (create_node transaction alice initial_world)) = ∅
  /\ exists sts,
       call_args_list
         (snd (create_node mock_session bob
                 (snd (create_node transaction alice initial_world))))
       = (call_args_list (snd (create_node transaction alice initial_world))
          ++ constraint_statement Person "Person" :: sts)%list.
Proof.
  destruct (skipped_constraint_is_not_cached transaction alice
              (_extract_labels Person) initial_world (or_introl eq_refl))
    as (_ & Hsame & Hlater).
  split; [exact (Hsame eq_refl)|].
  destruct (Hlater mock_session bob
              (snd (create_node transaction alice initial_world))
              "Person" [] eq_refl eq_refl (Hsame eq_refl))
    as [sts Hlog].
  - cbn. apply not_elem_of_empty.
  - discriminate.
  - reflexivity.
  - exists sts. exact Hlog.
Defined.

(** C9 as stated fails for the empty label list.  [Unlabelled] has a unique
    field and declares no label; [_ensure_constraints] skips and leaves it
    out of the cache, and the later [create_node] call for the same class,
    on a session that is no transaction, skips again: no constraint
    statement is sent. *)
Lemma empty_labels_skip_again :
  _extract_key_fields Unlabelled <> []
  /\ is_AsyncTransaction mock_session = false
  /\ _ensure_constraints mock_session Unlabelled (_extract_labels Unlabelled)
       initial_world
     = (Return tt, initial_world)
  /\ _known_constraints
       (snd (create_node mock_session unlabelled_1 initial_world)) = ∅
  /\ List.filter is_constraint_statement
       (call_args_list
          (snd (create_node mock_session unlabelled_2
                  (snd (create_node mock_session unlabelled_1
                          initial_world)))))
     = [].
Proof.
  split; [discriminate|]. split; [reflexivity|]. split; [reflexivity|].
  split; [|vm_compute; reflexivity].
  rewrite create_node_eq. reflexivity.
Qed.

(** ** Node creation without a row *)

(** C5, as the code behaves.  When the last call [create_node] made is its
    creation statement (a statement that is no constraint statement) and
    the session answered it with a result stream holding no row,
    [create_node] raises [CypheranticError('Failed to create node')].  That
    is the engine's base error; a handler for [ValueError] does not catch
    it. *)
Theorem create_node_without_row (session : SessionType) (model : Model)
    (w : World) (before : list Statement) (st : Statement) :
  call_args_list (snd (create_node session model w))
  = (call_args_list w ++ before ++ [st])%list ->
  is_constraint_statement st = false ->
  run session (call_args_list w ++ before)%list (query st) (parameters st)
  = Return [] ->
  exists e,
    fst (create_node session model w) = Raise e
    /\ e = mkErr CypheranticError "Failed to create node"
    /\ caught_by CypheranticError e = true
    /\ caught_by ValueError e = false.
Proof.
  intros Hlog Hnode Hrun.
  exists (mkErr CypheranticError "Failed to create node").
  split; [|auto].
  rewrite create_node_eq in Hlog |- *.
  destruct (ensure_phase_trace session (type model)
              (_extract_labels (type model)) w) as (pre & Hpre & Hall).
  assert (Hlast : forall sts,
             (call_args_list w ++ sts)%list
             = (call_args_list w ++ before ++ [st])%list ->
             Forall (fun st => is_constraint_statement st = true) sts ->
             False).
  { intros sts Heq Hsts. apply app_inv_head in Heq. subst sts.
    apply Forall_app in Hsts as [_ Hst]. inversion Hst as [|? ? Hst' _].
    rewrite Hnode in Hst'. discriminate Hst'. }
  destruct (if bool_decide _ then _ else _) as [[[]|e1] w1].
  - cbn [snd] in Hpre.
    destruct (send_node_statement_trace session model w1)
      as [Hsame|(properties & Hsent & Hout)].
    + exfalso. rewrite Hsame, Hpre in Hlog. exact (Hlast pre Hlog Hall).
    + cbv zeta in Hsent, Hout. rewrite Hsent in Hlog.
      cbn [called call_args_list] in Hlog.
      rewrite Hpre, <- app_assoc in Hlog. apply app_inv_head in Hlog.
      apply app_inj_tail in Hlog as [Hbefore Hst]. subst before st.
      cbn [fst snd] in Hout |- *. rewrite Hout, Hpre, Hrun. reflexivity.
  - exfalso. cbn [snd] in Hpre, Hlog. rewrite Hpre in Hlog.
    exact (Hlast pre Hlog Hall).
Qed.

(** [alice] on a session whose result streams are empty. *)
Lemma create_node_without_row_witness :
  fst (create_node silent_session alice initial_world)
  = Raise (mkErr CypheranticError "Failed to create node").
Proof.
  destruct (create_node_without_row silent_session alice initial_world
              [constraint_statement Person "Person"]
              (node_statement alice [("name", VStr "Alice")]))
    as (e & Hraise & -> & _).
  - vm_compute. reflexivity.
  - reflexivity.
  - reflexivity.
  - exact Hraise.
Defined.

(** C5 as stated fails: on the silent session the creation statement for
    [alice] yields no row, and the error raised is no [ValueError]. *)
Lemma create_node_without_row_not_ValueError :
  exists e,
    create_node silent_session alice initial_world
    = (Raise e,
       mkWorld {[cls_id Person]}
         [constraint_statement Person "Person";
          node_statement alice [("name", VStr "Alice")]])
    /\ run silent_session [constraint_statement Person "Person"]
         "CREATE (n:Person $properties) RETURN n"
         [("properties", VDict [("name", VStr "Alice")])]
       = Return []
    /\ caught_by ValueError e = false.
Proof.
  exists (mkErr CypheranticError "Failed to create node").
  split; [|split; reflexivity].
  rewrite create_node_eq. reflexivity.
Qed.

(** ** Relationships *)

(** C6.  With neither a relationship type nor a properties instance,
    [create_relationship] raises [CypheranticError('Either rel_cls or
    rel_type must be provided')] whatever the session and the two nodes are,
    and the state is untouched: [session.run] has not been called. *)
Theorem create_relationship_needs_a_name (session : SessionType)
    (from_node to_node : Model) (w : World) :
  create_relationship session from_node to_node None None w
  = (Raise (mkErr CypheranticError
                  "Either rel_cls or rel_type must be provided"), w)
  /\ call_args_list
       (snd (create_relationship session from_node to_node None None w))
     = call_args_list w.
Proof. split; reflexivity. Qed.

(** C7.  Whenever a name resolves (the explicit [rel_type], else the
    [rel_type] entry of the properties class's config, else the name of
    that class), the key attributes of both nodes are there and the
    parameters are JSON data, [create_relationship] sends exactly one
    statement; its [rel_name] parameter is the resolved name, and its text
    is the fixed MATCH-MATCH-CREATE template, which refers to the name only
    as [$($rel_name)]. *)
Theorem create_relationship_binds_resolved_name (session : SessionType)
    (from_node to_node : Model) (rel_props : option Model)
    (rel_type : option string) (w : World) (name : string)
    (from_props to_props : Dict Value) :
  resolved_rel_name rel_type rel_props = Some name ->
  getattr_dict from_node (_extract_key_fields (type from_node)) []
  = Return from_props ->
  getattr_dict to_node (_extract_key_fields (type to_node)) []
  = Return to_props ->
  json_serializable (VDict from_props) = true ->
  json_serializable (VDict to_props) = true ->
  json_serializable (VDict (from_option model_dump [] rel_props)) = true ->
  exists st,
    call_args_list
      (snd (create_relationship session from_node to_node rel_props
              rel_type w))
    = (call_args_list w ++ [st])%list
    /\ dict_get (parameters st) "rel_name" = Some (VStr name)
    /\ query st
       = "MATCH (a:" +:+ join "&" (_extract_labels (type from_node)) +:+ " "
         +:+ _build_match_clause (type from_node) "from_node_props"
         +:+ ") WITH a MATCH (b:"
         +:+ join "&" (_extract_labels (type to_node)) +:+ " "
         +:+ _build_match_clause (type to_node) "to_node_props"
         +:+ ") CREATE (a)-[r:$($rel_name) $rel_props]->(b) RETURN r".
Proof.
  intros Hname Hfrom Hto Hjfrom Hjto Hjrel.
  set (params := [("from_node_props", VDict from_props);
                  ("rel_name", VStr name);
                  ("rel_props", VDict (from_option model_dump [] rel_props));
                  ("to_node_props", VDict to_props)] : Dict Value).
  assert (Hjson : json_serializable (VDict params) = true).
  { cbn [json_serializable forallb snd params] in *.
    rewrite Hjfrom, Hjto, Hjrel. reflexivity. }
  eexists (mkStatement _ params). split; [|split; [reflexivity|]].
  - unfold create_relationship. unfold mbind, Async_bind at 1.
    assert (Hres :
      (match rel_type, rel_props with
       | Some rel_type, _ => mret rel_type
       | None, Some rel_props =>
           mret (default (__name__ (type rel_props))
                   (cfg_rel_type (default (Build_Config None None)
                      (cypherantic_config (type rel_props)))))
       | None, None =>
           raise CypheranticError
             "Either rel_cls or rel_type must be provided"
       end : Async string) w = (Return name, w)).
    { unfold resolved_rel_name, declared_rel_type in Hname.
      unfold mret, Async_ret.
      destruct rel_type as [given|]; [congruence|].
      destruct rel_props as [props|]; [|discriminate].
      destruct (cypherantic_config (type props)); cbn in Hname |- *;
        congruence. }
    rewrite Hres. clear Hres.
    unfold mbind, Async_bind, mret, Async_ret, lift.
    destruct (_extract_key_fields (type from_node)) as [|kf kfs];
      destruct (_extract_key_fields (type to_node)) as [|kt kts];
      rewrite ?Hfrom, ?Hto;
      cbn [getattr_dict] in Hfrom, Hto;
      try (injection Hfrom as <-); try (injection Hto as <-);
      cbn [dict_set]; repeat case_decide; try congruence;
      (rewrite instrumented_run_eq;
       [destruct (run session _ _ _) as [result|e];
        [destruct (single result)|]; destruct rel_props; reflexivity
       | destruct rel_props; exact Hjson]).
  - cbn [query]. reflexivity.
Qed.

(** [alice] and [bob] related through an [Employment] instance, whose class
    declares the name [WORKS_AT]. *)
Lemma create_relationship_binds_resolved_name_witness :
  exists st,
    call_args_list
      (snd (create_relationship mock_session alice bob (Some employment_1)
              None initial_world))
    = [st]
    /\ dict_get (parameters st) "rel_name" = Some (VStr "WORKS_AT").
Proof.
  destruct (create_relationship_binds_resolved_name mock_session alice bob
              (Some employment_1) None initial_world "WORKS_AT"
              [("name", VStr "Alice")] [("name", VStr "Bob")])
    as (st & Hlog & Hname & _).
  - reflexivity.
  - reflexivity.
  - reflexivity.
  - reflexivity.
  - reflexivity.
  - reflexivity.
  - exists st. split; [exact Hlog | exact Hname].
Defined.

Lemma retrieve_relationship_edges_sends (session : SessionType)
    (model : Model) (rel_name direction : string) (edge_cls : EdgeCls)
    (w : World)
    (validators : (Value -> Outcome Value) * (Value -> Outcome Value))
    (props : Dict Value) :
  _validate_edge_type edge_cls = Return validators ->
  getattr_dict model (_extract_key_fields (type model)) [] = Return props ->
  json_serializable (VDict props) = true ->
  call_args_list
    (snd (retrieve_relationship_edges session model rel_name direction
            edge_cls w))
  = (call_args_list w
     ++ [mkStatement
           (if decide (direction = "INCOMING")
            then "MATCH (b)-[r:$($rel_name)]->(a:"
                 +:+ join "&" (_extract_labels (type model)) +:+ " "
                 +:+ _build_match_clause (type model) "from_node_props"
                 +:+ ") RETURN r, b"
            else if decide (direction = "OUTGOING")
            then "MATCH (a:" +:+ join "&" (_extract_labels (type model))
                 +:+ " "
                 +:+ _build_match_clause (type model) "from_node_props"
                 +:+ ")-[r:$($rel_name)]->(b) RETURN r, b"
            else "MATCH (a:" +:+ join "&" (_extract_labels (type model))
                 +:+ " "
                 +:+ _build_match_clause (type model) "from_node_props"
                 +:+ ")-[r:$($rel_name)]-(b) RETURN r, b")
           (retrieval_parameters props rel_name)])%list.
Proof.
  intros Hvalid Hprops Hjson.
  assert (Hjparams :
            json_serializable (VDict (retrieval_parameters props rel_name))
            = true).
  { cbn [json_serializable forallb snd retrieval_parameters] in *.
    rewrite Hjson. reflexivity. }
  unfold retrieve_relationship_edges. rewrite Hvalid.
  destruct validators as [target_validate prop_validate].
  unfold mbind, Async_bind, mret, Async_ret, lift. cbv zeta.
  destruct (_extract_key_fields (type model)) as [|k ks];
    rewrite ?Hprops; cbn [getattr_dict] in Hprops;
    try (injection Hprops as <-);
    cbn [dict_set]; repeat case_decide; try congruence;
    (rewrite instrumented_run_eq by exact Hjparams);
    destruct (run session _ _ _); reflexivity.
Qed.

(** C2.  Once the edge class has passed [_validate_edge_type], the key
    attributes of the model are there and are JSON data,
    [retrieve_relationship_edges] sends exactly one statement, whose text
    for [INCOMING], [OUTGOING] and [UNDIRECTED] is the shape given for that
    direction, with the joined labels and the match clause in place.  The
    relationship name is bound as the parameter [rel_name], and the text
    sent is the same whatever the name is. *)
Theorem retrieve_relationship_edges_query_shapes (session : SessionType)
    (model : Model) (rel_name : string) (edge_cls : EdgeCls) (w : World)
    (validators : (Value -> Outcome Value) * (Value -> Outcome Value))
    (props : Dict Value) :
  _validate_edge_type edge_cls = Return validators ->
  getattr_dict model (_extract_key_fields (type model)) [] = Return props ->
  json_serializable (VDict props) = true ->
  call_args_list
    (snd (retrieve_relationship_edges session model rel_name "INCOMING"
            edge_cls w))
  = (call_args_list w
     ++ [mkStatement
           ("MATCH (b)-[r:$($rel_name)]->(a:"
            +:+ join "&" (_extract_labels (type model)) +:+ " "
            +:+ _build_match_clause (type model) "from_node_props"
            +:+ ") RETURN r, b")
           (retrieval_parameters props rel_name)])%list
  /\ call_args_list
       (snd (retrieve_relationship_edges session model rel_name "OUTGOING"
               edge_cls w))
     = (call_args_list w
        ++ [mkStatement
              ("MATCH (a:" +:+ join "&" (_extract_labels (type model))
               +:+ " "
               +:+ _build_match_clause (type model) "from_node_props"
               +:+ ")-[r:$($rel_name)]->(b) RETURN r, b")
              (retrieval_parameters props rel_name)])%list
  /\ call_args_list
       (snd (retrieve_relationship_edges session model rel_name "UNDIRECTED"
               edge_cls w))
     = (call_args_list w
        ++ [mkStatement
              ("MATCH (a:" +:+ join "&" (_extract_labels (type model))
               +:+ " "
               +:+ _build_match_clause (type model) "from_node_props"
               +:+ ")-[r:$($rel_name)]-(b) RETURN r, b")
              (retrieval_parameters props rel_name)])%list
  /\ dict_get (retrieval_parameters props rel_name) "rel_name"
     = Some (VStr rel_name)
  /\ forall direction other_name,
       map query
         (call_args_list
            (snd (retrieve_relationship_edges session model other_name
                    direction edge_cls w)))
       = map query
           (call_args_list
              (snd (retrieve_relationship_edges session model rel_name
                      direction edge_cls w))).
Proof.
  intros Hvalid Hprops Hjson.
  split; [|split; [|split; [|split; [reflexivity|]]]].
  - rewrite (retrieve_relationship_edges_sends _ _ _ _ _ _ _ _
               Hvalid Hprops Hjson).
    repeat case_decide; congruence.
  - rewrite (retrieve_relationship_edges_sends _ _ _ _ _ _ _ _
               Hvalid Hprops Hjson).
    repeat case_decide; congruence.
  - rewrite (retrieve_relationship_edges_sends _ _ _ _ _ _ _ _
               Hvalid Hprops Hjson).
    repeat case_decide; congruence.
  - intros direction other_name.
    rewrite !(retrieve_relationship_edges_sends _ _ _ _ _ _ _ _
                Hvalid Hprops Hjson).
    rewrite !map_app. reflexivity.
Qed.

(** The incoming friends of [alice]. *)
Lemma retrieve_relationship_edges_query_shapes_witness :
  call_args_list
    (snd (retrieve_relationship_edges mock_session alice "KNOWS" "INCOMING"
            FriendEdge initial_world))
  = [mkStatement
       ("MATCH (b)-[r:$($rel_name)]->"
        +:+ "(a:Person {name:$from_node_props.name}) RETURN r, b")
       [("from_node_props", VDict [("name", VStr "Alice")]);
        ("rel_name", VStr "KNOWS")]].
Proof.
  destruct (retrieve_relationship_edges_query_shapes mock_session alice
              "KNOWS" FriendEdge initial_world (accept, accept)
              [("name", VStr "Alice")])
    as (Hincoming & _).
  - reflexivity.
  - reflexivity.
  - reflexivity.
  - exact Hincoming.
Defined.

(** ** Validation errors *)

(** C10, as the code behaves.  [InvalidValueError] and
    [InvalidRelationshipError] are subclasses of both [CypheranticError] and
    [ValueError].  The errors the module raises with these two classes (for
    an absent node; for an absent, empty or over-long record in
    [unwrap_result_as_node]; for a missing relationship field, a field
    without generic origin, a field that is no sequence, a field without
    exactly one [Relationship]) are therefore caught by [except ValueError],
    as by [except CypheranticError]; [refresh_relationship] raises them
    before any call to the session. *)
Theorem validation_errors_are_ValueErrors :
  (forall c,
     c = InvalidValueError \/ c = InvalidRelationshipError ->
     issubclass c CypheranticError = true /\ issubclass c ValueError = true)
  /\ (forall model_cls,
        exists e,
          unwrap_node_as model_cls None = Raise e
          /\ caught_by ValueError e = true
          /\ caught_by CypheranticError e = true)
  /\ (forall model_cls result,
        single result = None
        \/ (exists record, single result = Some record
                           /\ length record <> 1) ->
        exists e,
          unwrap_result_as_node model_cls result = Raise e
          /\ caught_by ValueError e = true
          /\ caught_by CypheranticError e = true)
  /\ (forall session model rel_property w,
        malformed_relationship (type model) rel_property ->
        exists e,
          refresh_relationship session model rel_property w = (Raise e, w)
          /\ caught_by ValueError e = true
          /\ caught_by CypheranticError e = true).
Proof.
  split; [|split; [|split]].
  - intros c [-> | ->]; split; reflexivity.
  - intros model_cls. eexists. split; [reflexivity|]. split; reflexivity.
  - intros model_cls result [Hnone | (record & Hsome & Hlen)];
      unfold unwrap_result_as_node.
    + rewrite Hnone. eexists. split; [reflexivity|]. split; reflexivity.
    + rewrite Hsome. case_bool_decide as Hzero.
      * eexists. split; [reflexivity|]. split; reflexivity.
      * rewrite bool_decide_eq_false_2 by exact Hlen.
        eexists. split; [reflexivity|]. split; reflexivity.
  - intros session model rel_property w Hbad.
    unfold malformed_relationship in Hbad. unfold refresh_relationship.
    destruct (dict_get (model_fields (type model)) rel_property)
      as [field|].
    + destruct (get_origin field) as [origin|].
      * destruct Hbad as [-> Hbad]. cbn [negb].
        destruct (origin_is_sequence origin) eqn:Hseq; cbn [negb].
        -- destruct Hbad as [Hbad | Hlen]; [discriminate|].
           destruct (List.filter is_Relationship (metadata field))
             as [|[] [|]] eqn:Hrel; cbn [length] in Hlen;
             try congruence;
             try (eexists; split; [reflexivity|]; split; reflexivity).
        -- eexists. split; [reflexivity|]. split; reflexivity.
      * eexists. split; [reflexivity|]. split; reflexivity.
    + eexists. split; [reflexivity|]. split; reflexivity.
Qed.

(** An empty result stream, and a field [alice] does not have. *)
Lemma validation_errors_are_ValueErrors_witness :
  (exists e,
     unwrap_result_as_node Person [] = Raise e
     /\ caught_by ValueError e = true)
  /\ (exists e,
        refresh_relationship mock_session alice "friends" initial_world
        = (Raise e, initial_world)
        /\ caught_by ValueError e = true).
Proof.
  destruct validation_errors_are_ValueErrors as (_ & _ & Hresult & Hrefresh).
  split.
  - destruct (Hresult Person [] (or_introl eq_refl)) as (e & Hraise & Hv & _).
    exists e. split; [exact Hraise | exact Hv].
  - destruct (Hrefresh mock_session alice "friends" initial_world I)
      as (e & Hraise & Hv & _).
    exists e. split; [exact Hraise | exact Hv].
Defined.

(** C10 as stated fails.  A relationship field whose element type is no
    edge class is a malformed relationship annotation, and for it
    [refresh_relationship] raises the [TypeError] of [_validate_edge_type];
    a creation statement that yields no row, an absent record, makes
    [create_relationship] raise [CypheranticError].  Neither error is a
    [ValueError]. *)
Lemma validation_errors_beyond_ValueError :
  (exists e,
     refresh_relationship mock_session squad "members" initial_world
     = (Raise e, initial_world)
     /\ exc_type e = TypeError
     /\ caught_by ValueError e = false
     /\ caught_by CypheranticError e = false)
  /\ (exists e,
        fst (create_relationship silent_session alice bob None
               (Some "KNOWS") initial_world)
        = Raise e
        /\ exc_type e = CypheranticError
        /\ caught_by ValueError e = false).
Proof.
  split.
  - eexists. split; [reflexivity|]. split; [reflexivity|].
    split; reflexivity.
  - eexists. split; [vm_compute; reflexivity|]. split; reflexivity.
Qed.

(** ** Labels *)

Lemma extract_labels_eq (model_cls : ModelCls) :
  _extract_labels model_cls
  = default [__name__ model_cls] (declared_labels model_cls).
Proof.
  unfold _extract_labels, declared_labels.
  destruct (cypherantic_config model_cls) as [config|]; simpl;
    [destruct (cfg_labels config)|]; reflexivity.
Qed.

(** C8, as the code behaves.  [_extract_labels] returns the declared label
    list when there is one and the one-element list of the class name
    otherwise.  The list is empty exactly when the class declares an empty
    label list, so it is non-empty whenever no list or a non-empty list is
    declared.  [create_node], which resolves the labels inline, names the
    same list in every creation statement it sends. *)
Theorem extract_labels_declared_or_name (model_cls : ModelCls) :
  _extract_labels model_cls
  = match declared_labels model_cls with
    | Some labels => labels
    | None => [__name__ model_cls]
    end
  /\ (_extract_labels model_cls = [] <-> declared_labels model_cls = Some [])
  /\ (forall session model w st,
        type model = model_cls ->
        st ∈ call_args_list (snd (create_node session model w)) ->
        st ∈ call_args_list w
        \/ is_constraint_statement st = true
        \/ query st = "CREATE (n:" +:+ join "&" (_extract_labels model_cls)
                      +:+ " $properties) RETURN n").
Proof.
  split; [|split].
  - rewrite extract_labels_eq. destruct (declared_labels model_cls);
      reflexivity.
  - rewrite extract_labels_eq.
    destruct (declared_labels model_cls) as [labels|]; simpl; split;
      intros H; congruence.
  - intros session model w st <- Hin. rewrite create_node_eq in Hin.
    destruct (ensure_phase_trace session (type model)
                (_extract_labels (type model)) w) as (pre & Hpre & Hall).
    assert (Hearlier : st ∈ (call_args_list w ++ pre)%list ->
                       st ∈ call_args_list w
                       \/ is_constraint_statement st = true
                       \/ query st = query (node_statement model [])).
    { intros Hst. apply elem_of_app in Hst as [Hst|Hst]; [left; exact Hst|].
      right; left. rewrite Forall_forall in Hall. apply Hall, Hst. }
    destruct (if bool_decide _ then _ else _) as [[[]|e] w1];
      cbn [snd] in Hpre, Hin.
    + destruct (send_node_statement_trace session model w1)
        as [Hsame|(properties & Hsent & _)].
      * rewrite Hsame, Hpre in Hin. exact (Hearlier Hin).
      * cbv zeta in Hsent. rewrite Hsent in Hin.
        cbn [called call_args_list] in Hin. rewrite Hpre in Hin.
        apply elem_of_app in Hin as [Hin|Hin]; [exact (Hearlier Hin)|].
        apply list_elem_of_singleton in Hin. subst st.
        right; right. reflexivity.
    + rewrite Hpre in Hin. exact (Hearlier Hin).
Qed.

(** [Person] declares no label. *)
Lemma extract_labels_declared_or_name_witness :
  _extract_labels Person = ["Person"]
  /\ forall st,
       st ∈ call_args_list
              (snd (create_node mock_session alice initial_world)) ->
       is_constraint_statement st = true
       \/ query st = "CREATE (n:Person $properties) RETURN n".
Proof.
  destruct (extract_labels_declared_or_name Person) as (Hlabels & _ & Hsent).
  split; [exact Hlabels|].
  intros st Hin.
  destruct (Hsent mock_session alice initial_world st eq_refl Hin)
    as [Hnone | [Hc | Hq]].
  - inversion Hnone.
  - left. exact Hc.
  - right. exact Hq.
Defined.

(** C8 as stated fails: a class may declare an empty label list, and then
    the list extracted is empty. *)
Lemma extract_labels_may_be_empty :
  declared_labels Unlabelled = Some []
  /\ _extract_labels Unlabelled = [].
Proof. split; reflexivity. Qed.

(** * Further properties *)

(** ** Dictionaries *)

Lemma dict_get_set_eq {V} (d : Dict V) (k : string) (v : V) :
  dict_get (dict_set d k v) k = Some v.
Proof.
  induction d as [|[k' v'] d IH]; simpl.
  - case_decide; congruence.
  - destruct (decide (k' = k)) as [->|Hne]; simpl.
    + case_decide; congruence.
    + case_decide; [congruence | exact IH].
Qed.

Lemma dict_get_set_ne {V} (d : Dict V) (k k' : string) (v : V) :
  k <> k' -> dict_get (dict_set d k v) k' = dict_get d k'.
Proof.
  intros Hne. induction d as [|[k0 v0] d IH]; simpl.
  - case_decide; congruence.
  - destruct (decide (k0 = k)) as [->|Hne0]; simpl.
    + repeat case_decide; congruence.
    + case_decide; [reflexivity | exact IH].
Qed.

Lemma dict_get_None {V} (d : Dict V) (k : string) :
  dict_get d k = None <-> k ∉ map fst d.
Proof.
  induction d as [|[k' v'] d IH]; simpl.
  - split; [intros _; apply not_elem_of_nil | reflexivity].
  - rewrite not_elem_of_cons. case_decide as Hk; simpl.
    + split; [discriminate | intros [Hne _]; congruence].
    + rewrite IH. split; [intros H; split; [congruence | exact H]
                          | intros [_ H]; exact H].
Qed.

Lemma dict_set_keys {V} (d : Dict V) (k : string) (v : V) :
  map fst (dict_set d k v)
  = if bool_decide (k ∈ map fst d) then map fst d
    else (map fst d ++ [k])%list.
Proof.
  induction d as [|[k' v'] d IH]; cbn [dict_set map fst].
  - case_bool_decide as Hin; [inversion Hin | reflexivity].
  - destruct (decide (k' = k)) as [->|Hne]; cbn [map fst].
    + clear IH. case_bool_decide as Hin; [reflexivity|].
      exfalso. apply Hin. left.
    + rewrite IH. clear IH. repeat case_bool_decide; try reflexivity.
      * exfalso. match goal with H : _ ∉ _ :: _ |- _ => apply H end.
        right. assumption.
      * exfalso.
        match goal with H : _ ∈ _ :: _ |- _ =>
          apply elem_of_cons in H as [?|?] end; [congruence | contradiction].
Qed.

(** ** Key fields *)

Lemma unique_loop_eq (field_name : string) (mds : list Metadata)
    (acc : list string) :
  foldl (fun (key_fields : list string) md =>
           if is_unique_Field md then (key_fields ++ [field_name])%list
           else key_fields) acc mds
  = (acc ++ map (fun _ => field_name) (List.filter is_unique_Field mds))%list.
Proof.
  revert acc. induction mds as [|md mds IH]; intros acc; simpl.
  - symmetry. apply app_nil_r.
  - rewrite IH. destruct (is_unique_Field md); simpl;
      [rewrite <- app_assoc|]; reflexivity.
Qed.

Lemma extract_key_fields_eq (model_cls : ModelCls) :
  _extract_key_fields model_cls
  = flat_map unique_markers (model_fields model_cls).
Proof.
  unfold _extract_key_fields.
  enough (Hgen : forall fields acc,
    foldl (fun (key_fields : list string)
             '((field_name, field_info) : string * FieldInfo) =>
             foldl (fun (key_fields : list string) md =>
                      if is_unique_Field md
                      then (key_fields ++ [field_name])%list
                      else key_fields)
                   key_fields (metadata field_info))
          acc fields
    = (acc ++ flat_map unique_markers fields)%list)
    by apply (Hgen (model_fields model_cls) []).
  induction fields as [|[name info] fields IH]; intros acc; simpl.
  - symmetry. apply app_nil_r.
  - rewrite IH, unique_loop_eq, <- app_assoc. reflexivity.
Qed.

(** X1.  [_extract_key_fields] lists, in declaration order, the name of
    each field once per [Field(unique=True)] in its metadata: a name is a
    key field exactly when its field carries such a marker, so a field
    marked [Field(unique=False)], a relationship field or an unmarked field
    is none.  With distinct field names and at most one unique marker per
    field, no key field is listed twice. *)
Theorem extract_key_fields_unique_marked (model_cls : ModelCls) :
  _extract_key_fields model_cls
  = flat_map unique_markers (model_fields model_cls)
  /\ (forall field_name,
        field_name ∈ _extract_key_fields model_cls
        <-> exists field_info md,
              (field_name, field_info) ∈ model_fields model_cls
              /\ md ∈ metadata field_info
              /\ md = Field true)
  /\ (NoDup (map fst (model_fields model_cls)) ->
      Forall (fun item =>
                length (List.filter is_unique_Field (metadata item.2)) <= 1)
             (model_fields model_cls) ->
      NoDup (_extract_key_fields model_cls)).
Proof.
  split; [apply extract_key_fields_eq|]. split.
  - intros field_name. rewrite extract_key_fields_eq.
    rewrite list_elem_of_In, in_flat_map. split.
    + intros ([name info] & Hitem & Hin). unfold unique_markers in Hin.
      cbn [fst snd] in Hin. apply in_map_iff in Hin as (md & <- & Hmd).
      apply filter_In in Hmd as [Hmd Hunique].
      exists info, md. rewrite !list_elem_of_In.
      split; [exact Hitem|]. split; [exact Hmd|].
      destruct md as [[]| |]; simpl in Hunique; congruence.
    + intros (info & md & Hitem & Hmd & ->).
      exists (field_name, info). rewrite <- list_elem_of_In.
      split; [exact Hitem|]. unfold unique_markers. cbn [fst snd].
      apply in_map_iff. exists (Field true). split; [reflexivity|].
      apply filter_In. rewrite <- list_elem_of_In. split; [exact Hmd|].
      reflexivity.
  - rewrite extract_key_fields_eq.
    induction (model_fields model_cls) as [|[name info] fields IH];
      intros Hnames Hmarks; simpl; [constructor|].
    cbn [map fst] in Hnames. apply NoDup_cons in Hnames as [Hfresh Hnames].
    apply Forall_cons in Hmarks as [Hone Hmarks]. cbn [snd] in Hone.
    apply NoDup_app. split; [|split; [|apply IH; assumption]].
    + unfold unique_markers. cbn [fst snd].
      destruct (List.filter is_unique_Field (metadata info)) as [|? [|? ?]];
        simpl in Hone |- *; [constructor | apply NoDup_singleton | lia].
    + intros f Hhere Hlater. unfold unique_markers in Hhere.
      cbn [fst snd] in Hhere.
      apply list_elem_of_In, in_map_iff in Hhere as (_ & <- & _).
      apply list_elem_of_In, in_flat_map in Hlater as ([n i] & Hitem & Hin).
      unfold unique_markers in Hin. cbn [fst snd] in Hin.
      apply in_map_iff in Hin as (_ & -> & _).
      apply Hfresh. apply list_elem_of_In, in_map_iff.
      exists (name, i). split; [reflexivity | exact Hitem].
Qed.

(** [Person] has the one key field [name]. *)
Lemma extract_key_fields_unique_marked_witness :
  "name" ∈ _extract_key_fields Person
  /\ NoDup (_extract_key_fields Person).
Proof.
  destruct (extract_key_fields_unique_marked Person) as (_ & Hin & Hnodup).
  split.
  - apply Hin. exists unique_str, (Field true).
    split; [left|]. split; [left | reflexivity].
  - apply Hnodup.
    + cbn. apply NoDup_singleton.
    + repeat constructor.
Defined.

(** ** The properties of a node *)

Lemma node_properties_lookup (model_cls : ModelCls) (items : Dict Value) :
  forall (acc props : Dict Value),
    NoDup (map fst items) ->
    node_properties model_cls items acc = Return props ->
    forall field_name,
      dict_get props field_name
      = match dict_get items field_name with
        | Some v =>
            if is_relationship_field model_cls field_name
            then dict_get acc field_name
            else Some v
        | None => dict_get acc field_name
        end.
Proof.
  induction items as [|[k v] items IH]; intros acc props Hnodup Hrun f.
  - cbn in Hrun |- *. congruence.
  - cbn [map fst] in Hnodup. apply NoDup_cons in Hnodup as [Hfresh Hnodup].
    apply dict_get_None in Hfresh.
    cbn [node_properties] in Hrun. cbn [dict_get].
    destruct (dict_get (model_fields model_cls) k) as [info|] eqn:Hinfo;
      [|discriminate].
    assert (Hrel : is_relationship_field model_cls k
                   = existsb is_Relationship (metadata info))
      by (unfold is_relationship_field; rewrite Hinfo; reflexivity).
    destruct (existsb is_Relationship (metadata info)).
    + rewrite (IH acc props Hnodup Hrun f).
      destruct (decide (k = f)) as [<-|Hne]; [|reflexivity].
      rewrite Hfresh, Hrel. reflexivity.
    + rewrite (IH _ props Hnodup Hrun f).
      destruct (decide (k = f)) as [<-|Hne].
      * rewrite Hfresh, Hrel. apply dict_get_set_eq.
      * rewrite dict_get_set_ne by exact Hne. reflexivity.
Qed.

Lemma node_properties_total (model_cls : ModelCls) (items : Dict Value) :
  forall acc,
    Forall (fun item => is_Some (dict_get (model_fields model_cls) item.1))
           items ->
    exists props, node_properties model_cls items acc = Return props.
Proof.
  induction items as [|[k v] items IH]; intros acc Hall.
  - exists acc. reflexivity.
  - apply Forall_cons in Hall as [[info Hinfo] Hall]. cbn [fst] in Hinfo.
    cbn [node_properties]. rewrite Hinfo.
    destruct (existsb is_Relationship (metadata info)); apply IH, Hall.
Qed.

Lemma node_properties_KeyError (model_cls : ModelCls) (items : Dict Value) :
  forall acc e,
    node_properties model_cls items acc = Raise e ->
    exc_type e = KeyError
    /\ exc_msg e ∈ map fst items
    /\ dict_get (model_fields model_cls) (exc_msg e) = None.
Proof.
  induction items as [|[k v] items IH]; intros acc e Hrun.
  - discriminate.
  - cbn [node_properties] in Hrun.
    destruct (dict_get (model_fields model_cls) k) as [info|] eqn:Hinfo.
    + destruct (existsb is_Relationship (metadata info));
        destruct (IH _ e Hrun) as (Ht & Hin & Hnone);
        (split; [exact Ht|]; split; [right; exact Hin | exact Hnone]).
    + injection Hrun as <-. cbn. split; [reflexivity|].
      split; [left | exact Hinfo].
Qed.

(** X4.  The property loop of [create_node], run on a dump with distinct
    keys.  When every dumped name is a declared field the loop returns a
    dict in which a field whose metadata holds a [Relationship] is absent
    and every other dumped field has its dumped value.  The loop can only
    fail with [KeyError], on a dumped name that is no declared field. *)
Theorem node_properties_drop_relationships (model_cls : ModelCls)
    (items : Dict Value) :
  NoDup (map fst items) ->
  (Forall (fun item => is_Some (dict_get (model_fields model_cls) item.1))
          items ->
   exists props,
     node_properties model_cls items [] = Return props
     /\ forall field_name,
          dict_get props field_name
          = if is_relationship_field model_cls field_name then None
            else dict_get items field_name)
  /\ (forall e,
        node_properties model_cls items [] = Raise e ->
        exc_type e = KeyError
        /\ exc_msg e ∈ map fst items
        /\ dict_get (model_fields model_cls) (exc_msg e) = None).
Proof.
  intros Hnodup. split.
  - intros Hall.
    destruct (node_properties_total model_cls items [] Hall) as [props Hrun].
    exists props. split; [exact Hrun|]. intros f.
    rewrite (node_properties_lookup model_cls items [] props Hnodup Hrun f).
    cbn [dict_get].
    destruct (dict_get items f), (is_relationship_field model_cls f);
      reflexivity.
  - intros e. apply node_properties_KeyError.
Qed.

(** The [employees] relationship of a [Company] is left out; its [name] is
    kept. *)
Lemma node_properties_drop_relationships_witness :
  exists props,
    node_properties Company (model_dump techcorp) [] = Return props
    /\ dict_get props "employees" = None
    /\ dict_get props "name" = Some (VStr "TechCorp").
Proof.
  destruct (node_properties_drop_relationships Company (model_dump techcorp))
    as [Hok _].
  - cbn. apply NoDup_cons. split; [|apply NoDup_singleton].
    intros Hin. apply list_elem_of_singleton in Hin. discriminate Hin.
  - destruct Hok as (props & Hrun & Hlookup).
    + repeat constructor; eexists; reflexivity.
    + exists props. split; [exact Hrun|].
      split; [exact (Hlookup "employees") | exact (Hlookup "name")].
Defined.

(** ** Statements sent by [create_node] *)

Lemma send_node_statement_json (session : SessionType) (model : Model)
    (w1 : World) (props : Dict Value) :
  node_properties (type model) (model_dump model) [] = Return props ->
  json_serializable (VDict props) = true ->
  send_node_statement session model w1
  = (first_column_or "Failed to create node"
       (run session (call_args_list w1)
            (query (node_statement model props))
            (parameters (node_statement model props))),
     called w1 (node_statement model props)).
Proof.
  intros Hprops Hjson. unfold send_node_statement, first_column_or.
  rewrite Hprops. cbv zeta. rewrite Hjson.
  destruct (run session _ _ _) as [result|e]; [|reflexivity].
  destruct (single result); reflexivity.
Qed.

Lemma send_node_statement_not_json (session : SessionType) (model : Model)
    (w1 : World) (props : Dict Value) :
  node_properties (type model) (model_dump model) [] = Return props ->
  json_serializable (VDict props) = false ->
  send_node_statement session model w1
  = (Raise (mkErr TypeError "Object is not JSON serializable"), w1).
Proof.
  intros Hprops Hjson. unfold send_node_statement.
  rewrite Hprops. cbv zeta. rewrite Hjson. reflexivity.
Qed.

Lemma ensure_phase_cases (session : SessionType) (model_cls : ModelCls)
    (w : World) :
  EnsurePhase session model_cls w
    (if bool_decide (cls_id model_cls ∈ _known_constraints w)
     then (Return tt, w)
     else _ensure_constraints session model_cls
            (_extract_labels model_cls) w).
Proof.
  case_bool_decide as Hknown; [apply phase_skipped; auto|].
  rewrite ensure_constraints_eq.
  rewrite bool_decide_eq_false_2 by exact Hknown.
  destruct (is_AsyncTransaction session) eqn:Htx;
    [apply phase_skipped; auto|].
  destruct (_extract_labels model_cls) as [|first_label more_labels]
    eqn:Hlabels; [apply phase_skipped; auto|].
  destruct (_extract_key_fields model_cls) as [|k ks] eqn:Hkeys.
  - eapply phase_nothing_unique; eauto.
  - cbv zeta.
    destruct (run session _ _ []) as [result|e] eqn:Hrun.
    + eapply phase_constraint_created; eauto. rewrite Hkeys. discriminate.
    + eapply phase_constraint_failed; eauto. rewrite Hkeys. discriminate.
Qed.

(** X2.  Inside a transaction, for a class already in the cache, or for a
    class whose label list is empty, [create_node] sends the node statement
    and nothing else and leaves the cache as it is (given that the
    properties can be built and are JSON data).  The call raises what the
    session raises, raises [CypheranticError('Failed to create node')] when
    there is no row, and otherwise returns the first column of the first
    row. *)
Theorem create_node_sends_node_statement_only (session : SessionType)
    (model : Model) (w : World) (props : Dict Value) :
  is_AsyncTransaction session = true
  \/ cls_id (type model) ∈ _known_constraints w
  \/ _extract_labels (type model) = [] ->
  node_properties (type model) (model_dump model) [] = Return props ->
  json_serializable (VDict props) = true ->
  create_node session model w
  = (first_column_or "Failed to create node"
       (run session (call_args_list w)
            ("CREATE (n:" +:+ join "&" (_extract_labels (type model))
             +:+ " $properties) RETURN n")
            [("properties", VDict props)]),
     called w (node_statement model props)).
Proof.
  intros Hskip Hprops Hjson. rewrite create_node_eq.
  assert (Hphase :
            (if bool_decide (cls_id (type model) ∈ _known_constraints w)
             then (Return tt, w)
             else _ensure_constraints session (type model)
                    (_extract_labels (type model)) w)
            = (Return tt, w)).
  { case_bool_decide as Hknown; [reflexivity|].
    rewrite ensure_constraints_eq.
    destruct Hskip as [-> | [Hin | ->]];
      [reflexivity | contradiction |].
    destruct (is_AsyncTransaction session); reflexivity. }
  rewrite Hphase.
  apply (send_node_statement_json session model w props Hprops Hjson).
Qed.

(** [alice] created inside a transaction. *)
Lemma create_node_sends_node_statement_only_witness :
  create_node transaction alice initial_world
  = (Return (VObject "Node" []),
     called initial_world (node_statement alice [("name", VStr "Alice")])).
Proof.
  apply (create_node_sends_node_statement_only transaction alice
           initial_world [("name", VStr "Alice")]).
  - left. reflexivity.
  - reflexivity.
  - reflexivity.
Defined.

(** X3.  For a class without any unique field, not yet cached, with a
    label, on a session that is no transaction, [create_node] sends no
    constraint statement and puts the class in the cache all the same,
    whatever becomes of the node statement.  The node statement is the one
    call made when the properties can be built and are JSON data; otherwise
    no call is made at all. *)
Theorem create_node_caches_class_without_unique_field
    (session : SessionType) (model : Model) (w : World)
    (first_label : string) (more_labels : list string) :
  is_AsyncTransaction session = false ->
  cls_id (type model) ∉ _known_constraints w ->
  _extract_labels (type model) = first_label :: more_labels ->
  _extract_key_fields (type model) = [] ->
  _known_constraints (snd (create_node session model w))
  = {[cls_id (type model)]} ∪ _known_constraints w
  /\ (exists sts,
        call_args_list (snd (create_node session model w))
        = (call_args_list w ++ sts)%list
        /\ length sts <= 1
        /\ List.filter is_constraint_statement sts = [])
  /\ (forall props,
        node_properties (type model) (model_dump model) [] = Return props ->
        json_serializable (VDict props) = true ->
        call_args_list (snd (create_node session model w))
        = (call_args_list w ++ [node_statement model props])%list)
  /\ ((forall props,
         node_properties (type model) (model_dump model) [] = Return props ->
         json_serializable (VDict props) = false) ->
      call_args_list (snd (create_node session model w))
      = call_args_list w).
Proof.
  intros Htx Hnotin Hlabels Hkeys.
  rewrite create_node_eq, ensure_constraints_eq, Htx, Hlabels, Hkeys.
  rewrite bool_decide_eq_false_2 by exact Hnotin.
  split; [|split; [|split]].
  - destruct (send_node_statement_trace session model
                (cached w (type model)))
      as [->|(properties & -> & _)]; reflexivity.
  - destruct (send_node_statement_trace session model
                (cached w (type model)))
      as [->|(properties & -> & _)].
    + exists []. cbn [cached call_args_list length List.filter].
      rewrite app_nil_r. auto.
    + exists [node_statement model properties]. auto.
  - intros props Hprops Hjson.
    rewrite (send_node_statement_json session model _ props Hprops Hjson).
    reflexivity.
  - intros Hnever.
    destruct (node_properties (type model) (model_dump model) [])
      as [props|e] eqn:Hprops.
    + rewrite (send_node_statement_not_json session model _ props Hprops
                 (Hnever props eq_refl)).
      reflexivity.
    + unfold send_node_statement. rewrite Hprops. reflexivity.
Qed.

(** [Company] has no unique field: its node statement is the only call.
    [Event] has none either and holds a datetime: no call is made, and the
    class is cached. *)
Lemma create_node_caches_class_without_unique_field_witness :
  call_args_list (snd (create_node mock_session techcorp initial_world))
  = [node_statement techcorp [("name", VStr "TechCorp")]]
  /\ _known_constraints (snd (create_node mock_session techcorp initial_world))
     = {[cls_id Company]} ∪ ∅
  /\ call_args_list (snd (create_node mock_session launch initial_world))
     = []
  /\ _known_constraints (snd (create_node mock_session launch initial_world))
     = {[cls_id Event]} ∪ ∅.
Proof.
  destruct (create_node_caches_class_without_unique_field mock_session
              techcorp initial_world "Company" [])
    as (Hcached & _ & Hsent & _).
  { reflexivity. }
  { cbn. apply not_elem_of_empty. }
  { reflexivity. }
  { reflexivity. }
  destruct (create_node_caches_class_without_unique_field mock_session
              launch initial_world "Event" [])
    as (Hcached' & _ & _ & Hnothing).
  { reflexivity. }
  { cbn. apply not_elem_of_empty. }
  { reflexivity. }
  { reflexivity. }
  split; [|split; [exact Hcached|split; [|exact Hcached']]].
  - apply (Hsent [("name", VStr "TechCorp")]); reflexivity.
  - apply Hnothing. intros props Hprops.
    cbn in Hprops. injection Hprops as <-. reflexivity.
Defined.



(** X6.  Whatever the session, the model and the state, one [create_node]
    call makes at most two calls to the session, at most one constraint
    statement followed by at most one other statement; it removes nothing
    from the cache and adds at most the class of the model. *)
Theorem create_node_footprint (session : SessionType) (model : Model)
    (w : World) :
  exists pre post,
    call_args_list (snd (create_node session model w))
    = (call_args_list w ++ pre ++ post)%list
    /\ length pre <= 1 /\ length post <= 1
    /\ Forall (fun st => is_constraint_statement st = true) pre
    /\ Forall (fun st => is_constraint_statement st = false) post
    /\ _known_constraints w
       ⊆ _known_constraints (snd (create_node session model w))
    /\ _known_constraints (snd (create_node session model w))
       ⊆ {[cls_id (type model)]} ∪ _known_constraints w.
Proof.
  rewrite create_node_eq.
  assert (Htail : forall w1 pre,
    call_args_list w1 = (call_args_list w ++ pre)%list ->
    exists post,
      call_args_list (snd (send_node_statement session model w1))
      = (call_args_list w ++ pre ++ post)%list
      /\ length post <= 1
      /\ Forall (fun st => is_constraint_statement st = false) post
      /\ _known_constraints (snd (send_node_statement session model w1))
         = _known_constraints w1).
  { intros w1 pre Hpre.
    destruct (send_node_statement_trace session model w1)
      as [->|(properties & -> & _)].
    - exists []. rewrite app_nil_r. auto.
    - exists [node_statement model properties].
      cbn [called call_args_list _known_constraints].
      rewrite Hpre, <- app_assoc. repeat split; auto. }
  destruct (ensure_phase_cases session (type model) w)
    as [Hskip | l0 ls Htx Hnotin Hlabels Hkeys
        | l0 ls result Htx Hnotin Hlabels Hkeys Hrun
        | l0 ls e Htx Hnotin Hlabels Hkeys Hrun].
  - destruct (Htail w []) as (post & Hlog & Hlen & Hpost & Hknown).
    { symmetry. apply app_nil_r. }
    exists [], post. rewrite Hknown.
    repeat split; auto;
      first [reflexivity | apply union_subseteq_r].
  - destruct (Htail (cached w (type model)) [])
      as (post & Hlog & Hlen & Hpost & Hknown).
    { symmetry. apply app_nil_r. }
    exists [], post. rewrite Hknown. cbn [cached _known_constraints].
    repeat split; auto;
      first [reflexivity | apply union_subseteq_r].
  - destruct (Htail (cached (called w (constraint_statement (type model) l0))
                             (type model))
                    [constraint_statement (type model) l0])
      as (post & Hlog & Hlen & Hpost & Hknown); [reflexivity|].
    exists [constraint_statement (type model) l0], post.
    rewrite Hknown. cbn [cached called _known_constraints].
    repeat split; auto;
      first [reflexivity | apply union_subseteq_r].
  - exists [constraint_statement (type model) l0], [].
    cbn [snd called call_args_list _known_constraints].
    repeat split; auto;
      first [reflexivity | apply union_subseteq_r].
Qed.

(** X7.  When the constraint statement succeeds and the node statement
    then raises [e], [create_node] raises [e] with both statements sent and
    the class already cached: a later [create_node] call for the same class
    sends no constraint statement. *)
Theorem create_node_failure_after_constraint (session : SessionType)
    (model : Model) (w : World) (first_label : string)
    (more_labels : list string) (result : AsyncResult)
    (props : Dict Value) (e : PyErr) :
  is_AsyncTransaction session = false ->
  cls_id (type model) ∉ _known_constraints w ->
  _extract_labels (type model) = first_label :: more_labels ->
  _extract_key_fields (type model) <> [] ->
  run session (call_args_list w)
      (query (constraint_statement (type model) first_label)) []
  = Return result ->
  node_properties (type model) (model_dump model) [] = Return props ->
  json_serializable (VDict props) = true ->
  run session
      (call_args_list w ++ [constraint_statement (type model) first_label])
      (query (node_statement model props))
      (parameters (node_statement model props))
  = Raise e ->
  create_node session model w
  = (Raise e,
     called (cached (called w (constraint_statement (type model) first_label))
                    (type model))
            (node_statement model props))
  /\ forall later_session later_model,
       type later_model = type model ->
       exists sts,
         call_args_list
           (snd (create_node later_session later_model
                   (snd (create_node session model w))))
         = (call_args_list (snd (create_node session model w)) ++ sts)%list
         /\ List.filter is_constraint_statement sts = [].
Proof.
  intros Htx Hnotin Hlabels Hkeys Hrun Hprops Hjson Hfail.
  assert (Hcall :
    create_node session model w
    = (Raise e,
       called (cached (called w (constraint_statement (type model)
                                   first_label))
                      (type model))
              (node_statement model props))).
  { rewrite create_node_eq, ensure_constraints_eq, Htx, Hlabels.
    rewrite bool_decide_eq_false_2 by exact Hnotin.
    destruct (_extract_key_fields (type model)); [congruence|].
    cbv zeta. rewrite Hrun.
    rewrite (send_node_statement_json session model _ props Hprops Hjson).
    cbn [cached called call_args_list]. rewrite Hfail. reflexivity. }
  split; [exact Hcall|].
  intros later_session later_model Hlater.
  destruct (create_node_cached later_session later_model
              (snd (create_node session model w)))
    as (sts & Hlog & Hnone & _).
  - rewrite Hcall, Hlater. cbn [snd called cached _known_constraints].
    apply elem_of_union_l, elem_of_singleton. reflexivity.
  - exists sts. split; [exact Hlog | exact Hnone].
Qed.

(** A session that accepts the constraint and refuses the node. *)
Lemma create_node_failure_after_constraint_witness :
  fst (create_node schema_only_session alice initial_world)
  = Raise (mkErr (ForeignError "ClientError") "write refused")
  /\ exists sts,
       call_args_list
         (snd (create_node schema_only_session bob
                 (snd (create_node schema_only_session alice
                         initial_world))))
       = (call_args_list
            (snd (create_node schema_only_session alice initial_world))
          ++ sts)%list
       /\ List.filter is_constraint_statement sts = [].
Proof.
  destruct (create_node_failure_after_constraint schema_only_session alice
              initial_world "Person" [] [] [("name", VStr "Alice")]
              (mkErr (ForeignError "ClientError") "write refused"))
    as [Hcall Hlater].
  - reflexivity.
  - cbn. apply not_elem_of_empty.
  - reflexivity.
  - discriminate.
  - reflexivity.
  - reflexivity.
  - reflexivity.
  - reflexivity.
  - split; [rewrite Hcall; reflexivity|].
    exact (Hlater schema_only_session bob eq_refl).
Defined.

Lemma create_node_grows (session : SessionType) (model : Model) (w : World) :
  _known_constraints w
  ⊆ _known_constraints (snd (create_node session model w))
  /\ exists sts,
       call_args_list (snd (create_node session model w))
       = (call_args_list w ++ sts)%list
       /\ length sts <= 2.
Proof.
  rewrite create_node_eq.
  assert (Htail : forall w1 pre,
    _known_constraints w ⊆ _known_constraints w1 ->
    call_args_list w1 = (call_args_list w ++ pre)%list ->
    length pre <= 1 ->
    _known_constraints w
    ⊆ _known_constraints (snd (send_node_statement session model w1))
    /\ exists sts,
         call_args_list (snd (send_node_statement session model w1))
         = (call_args_list w ++ sts)%list
         /\ length sts <= 2).
  { intros w1 pre Hsub Hpre Hlen.
    destruct (send_node_statement_trace session model w1)
      as [->|(properties & -> & _)].
    - split; [exact Hsub|]. exists pre. split; [exact Hpre | lia].
    - split; [exact Hsub|].
      exists (pre ++ [node_statement model properties])%list.
      cbn [called call_args_list]. rewrite Hpre, <- app_assoc, length_app.
      split; [reflexivity | cbn; lia]. }
  destruct (ensure_phase_cases session (type model) w)
    as [Hskip | l0 ls Htx Hnotin Hlabels Hkeys
        | l0 ls result Htx Hnotin Hlabels Hkeys Hrun
        | l0 ls e Htx Hnotin Hlabels Hkeys Hrun].
  - apply (Htail w []); [reflexivity | symmetry; apply app_nil_r | cbn; lia].
  - apply (Htail _ []);
      [apply union_subseteq_r | symmetry; apply app_nil_r | cbn; lia].
  - apply (Htail _ [constraint_statement (type model) l0]);
      [apply union_subseteq_r | reflexivity | cbn; lia].
  - split; [reflexivity|].
    exists [constraint_statement (type model) l0].
    split; [reflexivity | cbn; lia].
Qed.

(** X8.  Over any sequence of [create_node] calls, returning or raising,
    no class leaves the cache, the calls recorded so far stay a prefix of
    the trace, and at most two statements are sent per call. *)
Theorem create_nodes_only_grow (calls : list (SessionType * Model))
    (w : World) :
  _known_constraints w ⊆ _known_constraints (create_nodes calls w)
  /\ exists sts,
       call_args_list (create_nodes calls w)
       = (call_args_list w ++ sts)%list
       /\ length sts <= 2 * length calls.
Proof.
  revert w. induction calls as [|[session model] calls IH]; intros w.
  - split; [reflexivity|]. exists []. rewrite app_nil_r.
    split; [reflexivity | cbn; lia].
  - cbn [create_nodes].
    destruct (create_node_grows session model w)
      as (Hsub1 & sts1 & Hlog1 & Hlen1).
    destruct (IH (snd (create_node session model w)))
      as (Hsub2 & sts2 & Hlog2 & Hlen2).
    split; [etransitivity; [exact Hsub1 | exact Hsub2]|].
    exists (sts1 ++ sts2)%list. rewrite Hlog2, Hlog1, <- app_assoc, length_app.
    split; [reflexivity | cbn [length]; lia].
Qed.

(** ** Key attributes and the match clause *)

Lemma getattr_dict_keys (model : Model) (fields : list string) :
  forall acc props,
    getattr_dict model fields acc = Return props ->
    map fst props
    = foldl (fun (seen : list string) field =>
               if bool_decide (field ∈ seen) then seen
               else (seen ++ [field])%list)
            (map fst acc) fields.
Proof.
  induction fields as [|k fields IH]; intros acc props Hrun.
  - cbn in Hrun. injection Hrun as <-. reflexivity.
  - cbn [getattr_dict] in Hrun. destruct (getattr model k) as [v|e];
      [|discriminate].
    rewrite (IH _ props Hrun), dict_set_keys. reflexivity.
Qed.

Lemma getattr_dict_values (model : Model) (fields : list string) :
  forall acc props,
    getattr_dict model fields acc = Return props ->
    forall f,
      dict_get props f
      = if bool_decide (f ∈ fields) then dict_get (attrs model) f
        else dict_get acc f.
Proof.
  induction fields as [|k fields IH]; intros acc props Hrun f.
  - cbn in Hrun. injection Hrun as <-.
    rewrite bool_decide_eq_false_2 by apply not_elem_of_nil. reflexivity.
  - cbn [getattr_dict] in Hrun. unfold getattr in Hrun.
    destruct (dict_get (attrs model) k) as [v|] eqn:Hk; [|discriminate].
    rewrite (IH _ props Hrun f).
    destruct (decide (f = k)) as [->|Hne].
    + rewrite (bool_decide_eq_true_2 (k ∈ k :: fields)) by left.
      case_bool_decide; [reflexivity|]. rewrite dict_get_set_eq. congruence.
    + rewrite dict_get_set_ne by congruence.
      repeat case_bool_decide; try reflexivity.
      * exfalso. match goal with H : _ ∉ _ :: _ |- _ => apply H end.
        right. assumption.
      * exfalso.
        match goal with H : _ ∈ _ :: _ |- _ =>
          apply elem_of_cons in H as [?|?] end; [congruence | contradiction].
Qed.

Lemma getattr_dict_total (model : Model) (fields : list string) :
  forall acc,
    Forall (fun f => is_Some (dict_get (attrs model) f)) fields ->
    exists props, getattr_dict model fields acc = Return props.
Proof.
  induction fields as [|k fields IH]; intros acc Hall.
  - exists acc. reflexivity.
  - apply Forall_cons in Hall as [[v Hk] Hall].
    cbn [getattr_dict]. unfold getattr. rewrite Hk. apply IH, Hall.
Qed.

Lemma getattr_dict_AttributeError (model : Model) (fields : list string) :
  forall acc e,
    getattr_dict model fields acc = Raise e ->
    exc_type e = AttributeError
    /\ exc_msg e ∈ fields
    /\ dict_get (attrs model) (exc_msg e) = None.
Proof.
  induction fields as [|k fields IH]; intros acc e Hrun.
  - discriminate.
  - cbn [getattr_dict] in Hrun. unfold getattr in Hrun.
    destruct (dict_get (attrs model) k) as [v|] eqn:Hk.
    + destruct (IH _ e Hrun) as (Ht & Hin & Hnone).
      split; [exact Ht|]. split; [right; exact Hin | exact Hnone].
    + injection Hrun as <-. cbn. split; [reflexivity|].
      split; [left | exact Hk].
Qed.

Lemma getattr_dict_missing (model : Model) (fields : list string)
    (acc : Dict Value) (f : string) :
  f ∈ fields -> dict_get (attrs model) f = None ->
  exists e, getattr_dict model fields acc = Raise e.
Proof.
  revert acc. induction fields as [|k fields IH]; intros acc Hin Hnone.
  - inversion Hin.
  - cbn [getattr_dict]. unfold getattr.
    destruct (dict_get (attrs model) k) as [v|] eqn:Hk; [|eexists; reflexivity].
    apply elem_of_cons in Hin as [->|Hin]; [congruence|].
    apply IH; assumption.
Qed.

(** X11.  When the key attributes of a model can be read, the dict bound as
    [from_node_props] or [to_node_props] has exactly the key fields as its
    keys, each once and in declaration order, with the attribute values of
    the model; and the match clause names exactly these keys, so every
    [$alias.field] it mentions is bound. *)
Theorem key_parameters_match_the_clause (model : Model)
    (props : Dict Value) :
  getattr_dict model (_extract_key_fields (type model)) [] = Return props ->
  map fst props = distinct_in_order (_extract_key_fields (type model))
  /\ (forall f,
        dict_get props f
        = if bool_decide (f ∈ _extract_key_fields (type model))
          then dict_get (attrs model) f
          else None)
  /\ forall alias,
       _build_match_clause (type model) alias
       = match map fst props with
         | [] => EmptyString
         | fields =>
             "{" +:+ join ","
                       (map (fun f => f +:+ ":$" +:+ alias +:+ "." +:+ f)
                            fields) +:+ "}"
         end.
Proof.
  intros Hrun.
  assert (Hkeys : map fst props
                  = distinct_in_order (_extract_key_fields (type model)))
    by apply (getattr_dict_keys model _ [] props Hrun).
  split; [exact Hkeys|]. split.
  - intros f. apply (getattr_dict_values model _ [] props Hrun f).
  - intros alias. rewrite Hkeys. apply build_match_clause_eq.
Qed.

(** The key of [alice]. *)
Lemma key_parameters_match_the_clause_witness :
  map fst [("name", VStr "Alice")] = ["name"]
  /\ _build_match_clause Person "from_node_props"
     = "{name:$from_node_props.name}".
Proof.
  destruct (key_parameters_match_the_clause alice [("name", VStr "Alice")])
    as (Hkeys & _ & Hclause).
  - reflexivity.
  - split; [exact Hkeys|]. rewrite Hclause. reflexivity.
Defined.

(** ** [create_relationship] *)

Lemma create_relationship_eq (session : SessionType)
    (from_node to_node : Model) (rel_props : option Model)
    (rel_type : option string) (w : World) (name : string)
    (from_props to_props : Dict Value) :
  resolved_rel_name rel_type rel_props = Some name ->
  getattr_dict from_node (_extract_key_fields (type from_node)) []
  = Return from_props ->
  getattr_dict to_node (_extract_key_fields (type to_node)) []
  = Return to_props ->
  json_serializable (VDict from_props) = true ->
  json_serializable (VDict to_props) = true ->
  json_serializable (VDict (from_option model_dump [] rel_props)) = true ->
  create_relationship session from_node to_node rel_props rel_type w
  = (first_column_or "Failed to create relationship"
       (run session (call_args_list w)
          (query (relationship_statement from_node to_node rel_props name
                    from_props to_props))
          (parameters (relationship_statement from_node to_node rel_props
                         name from_props to_props))),
     called w (relationship_statement from_node to_node rel_props name
                 from_props to_props)).
Proof.
  intros Hname Hfrom Hto Hjfrom Hjto Hjrel.
  assert (Hjson :
    json_serializable
      (VDict (parameters (relationship_statement from_node to_node rel_props
                            name from_props to_props))) = true).
  { cbn [json_serializable forallb snd parameters relationship_statement]
      in *.
    rewrite Hjfrom, Hjto, Hjrel. reflexivity. }
  unfold create_relationship. unfold mbind, Async_bind at 1.
  assert (Hres :
    (match rel_type, rel_props with
     | Some rel_type, _ => mret rel_type
     | None, Some rel_props =>
         mret (default (__name__ (type rel_props))
                 (cfg_rel_type (default (Build_Config None None)
                    (cypherantic_config (type rel_props)))))
     | None, None =>
         raise CypheranticError
           "Either rel_cls or rel_type must be provided"
     end : Async string) w = (Return name, w)).
  { unfold resolved_rel_name, declared_rel_type in Hname.
    unfold mret, Async_ret.
    destruct rel_type as [given|]; [congruence|].
    destruct rel_props as [props|]; [|discriminate].
    destruct (cypherantic_config (type props)); cbn in Hname |- *;
      congruence. }
  rewrite Hres. clear Hres.
  unfold mbind, Async_bind, mret, Async_ret, lift, first_column_or.
  unfold relationship_statement in *. cbn [query parameters] in *.
  destruct (_extract_key_fields (type from_node)) as [|kf kfs];
    destruct (_extract_key_fields (type to_node)) as [|kt kts];
    rewrite ?Hfrom, ?Hto;
    cbn [getattr_dict] in Hfrom, Hto;
    try (injection Hfrom as <-); try (injection Hto as <-);
    cbn [dict_set]; repeat case_decide; try congruence;
    (rewrite instrumented_run_eq; [|destruct rel_props; exact Hjson]);
    destruct rel_props; cbn [from_option];
    match goal with
    | |- context [run session ?l ?q ?p] => set (answer := run session l q p)
    end;
    change (run session _ _ _) with answer;
    (destruct answer as [result|e]; [destruct (single result)|]);
    reflexivity.
Qed.

(** X9.  When a name resolves, the key attributes of both nodes are there
    and the parameters are JSON data, [create_relationship] sends one
    statement that binds the key attributes of the source as
    [from_node_props], those of the target as [to_node_props], the name as
    [rel_name] and the dump of the properties instance as [rel_props] (the
    empty dict when only a name is given, the dump still when both are
    given).  It raises what the session raises, raises
    [CypheranticError('Failed to create relationship')] when there is no
    row, and otherwise returns the first column of the first row. *)
Theorem create_relationship_sends_and_returns (session : SessionType)
    (from_node to_node : Model) (rel_props : option Model)
    (rel_type : option string) (w : World) (name : string)
    (from_props to_props : Dict Value) :
  resolved_rel_name rel_type rel_props = Some name ->
  getattr_dict from_node (_extract_key_fields (type from_node)) []
  = Return from_props ->
  getattr_dict to_node (_extract_key_fields (type to_node)) []
  = Return to_props ->
  json_serializable (VDict from_props) = true ->
  json_serializable (VDict to_props) = true ->
  json_serializable (VDict (from_option model_dump [] rel_props)) = true ->
  exists st,
    snd (create_relationship session from_node to_node rel_props rel_type w)
    = called w st
    /\ parameters st
       = [("from_node_props", VDict from_props);
          ("rel_name", VStr name);
          ("rel_props",
           VDict (match rel_props with
                  | Some props => model_dump props
                  | None => []
                  end));
          ("to_node_props", VDict to_props)]
    /\ match run session (call_args_list w) (query st) (parameters st) with
       | Raise e =>
           fst (create_relationship session from_node to_node rel_props
                  rel_type w) = Raise e
       | Return [] =>
           fst (create_relationship session from_node to_node rel_props
                  rel_type w)
           = Raise (mkErr CypheranticError "Failed to create relationship")
       | Return (record :: _) =>
           fst (create_relationship session from_node to_node rel_props
                  rel_type w)
           = record_first record
       end.
Proof.
  intros Hname Hfrom Hto Hjfrom Hjto Hjrel.
  exists (relationship_statement from_node to_node rel_props name
            from_props to_props).
  rewrite (create_relationship_eq session from_node to_node rel_props
             rel_type w name from_props to_props
             Hname Hfrom Hto Hjfrom Hjto Hjrel).
  split; [reflexivity|]. split; [destruct rel_props; reflexivity|].
  cbn [fst]. unfold first_column_or.
  destruct (run session _ _ _) as [[|record rows]|e]; reflexivity.
Qed.

(** [alice] KNOWS [bob], on a session that yields no row. *)
Lemma create_relationship_sends_and_returns_witness :
  exists st,
    snd (create_relationship silent_session alice bob None (Some "KNOWS")
           initial_world)
    = called initial_world st
    /\ parameters st
       = [("from_node_props", VDict [("name", VStr "Alice")]);
          ("rel_name", VStr "KNOWS");
          ("rel_props", VDict []);
          ("to_node_props", VDict [("name", VStr "Bob")])]
    /\ fst (create_relationship silent_session alice bob None (Some "KNOWS")
              initial_world)
       = Raise (mkErr CypheranticError "Failed to create relationship").
Proof.
  destruct (create_relationship_sends_and_returns silent_session alice bob
              None (Some "KNOWS") initial_world "KNOWS"
              [("name", VStr "Alice")] [("name", VStr "Bob")])
    as (st & Hstate & Hparams & Hout).
  - reflexivity.
  - reflexivity.
  - reflexivity.
  - reflexivity.
  - reflexivity.
  - reflexivity.
  - exists st. split; [exact Hstate|]. split; [exact Hparams|].
    exact Hout.
Defined.

(** ** What the relationship operations leave alone *)

Lemma sends_nothing {A} (o : Outcome A) :
  sends_at_most 0 (fun w => (o, w)).
Proof.
  intros w. split; [reflexivity|]. exists []. cbn [snd].
  rewrite app_nil_r. auto.
Qed.

Lemma sends_at_most_bind {A B} (a b : nat) (m : Async A)
    (f : A -> Async B) :
  sends_at_most a m ->
  (forall x, sends_at_most b (f x)) ->
  sends_at_most (a + b) (m ≫= f).
Proof.
  intros Hm Hf w. unfold mbind, Async_bind.
  destruct (Hm w) as (Hknown & sts & Hlog & Hlen & Hsts).
  destruct (m w) as [[x|e] w1]; cbn [snd] in *.
  - destruct (Hf x w1) as (Hknown' & sts' & Hlog' & Hlen' & Hsts').
    split; [congruence|]. exists (sts ++ sts')%list.
    rewrite Hlog', Hlog, <- app_assoc, length_app, Forall_app.
    repeat split; auto. lia.
  - split; [exact Hknown|]. exists sts. repeat split; auto. lia.
Qed.

Lemma sends_at_most_run (session : SessionType) (q : string)
    (params : Dict Value) :
  String.prefix "CREATE CONSTRAINT" q = false ->
  sends_at_most 1 (_instrumented_run session q params).
Proof.
  intros Hq w. unfold _instrumented_run.
  destruct (json_serializable _).
  - split; [reflexivity|]. exists [mkStatement q params].
    repeat split; auto.
  - split; [reflexivity|]. exists []. cbn [snd raise].
    rewrite app_nil_r. auto.
Qed.

Lemma sends_at_most_le {A} (a b : nat) (m : Async A) :
  a <= b -> sends_at_most a m -> sends_at_most b m.
Proof.
  intros Hle Hm w. destruct (Hm w) as (Hknown & sts & Hlog & Hlen & Hsts).
  split; [exact Hknown|]. exists sts. repeat split; auto. lia.
Qed.

Lemma key_parameters_quiet (model : Model) (key_fields : list string)
    (params : Dict Value) (name : string) :
  sends_at_most 0
    (match key_fields with
     | [] => mret params
     | k :: ks =>
         props ← lift (getattr_dict model (k :: ks) []);
         mret (dict_set params name (VDict props))
     end : Async (Dict Value)).
Proof.
  destruct key_fields; [apply sends_nothing|].
  apply (sends_at_most_bind 0 0); [apply sends_nothing|].
  intros props. apply sends_nothing.
Qed.

Lemma create_relationship_quiet (session : SessionType)
    (from_node to_node : Model) (rel_props : option Model)
    (rel_type : option string) :
  sends_at_most 1
    (create_relationship session from_node to_node rel_props rel_type).
Proof.
  unfold create_relationship.
  apply (sends_at_most_bind 0 1).
  { destruct rel_type, rel_props; apply sends_nothing. }
  intros rel_name. cbv zeta.
  apply (sends_at_most_bind 0 1); [apply key_parameters_quiet|].
  intros params1.
  apply (sends_at_most_bind 0 1); [apply key_parameters_quiet|].
  intros params2.
  apply (sends_at_most_bind 1 0);
    [apply sends_at_most_run; reflexivity|].
  intros result. destruct (single result); apply sends_nothing.
Qed.

Lemma retrieve_relationship_edges_quiet (session : SessionType)
    (model : Model) (rel_name direction : string) (edge_cls : EdgeCls) :
  sends_at_most 1
    (retrieve_relationship_edges session model rel_name direction edge_cls).
Proof.
  unfold retrieve_relationship_edges.
  apply (sends_at_most_bind 0 1); [apply sends_nothing|].
  intros [target_validate prop_validate]. cbv zeta.
  apply (sends_at_most_bind 0 1); [apply key_parameters_quiet|].
  intros params.
  apply (sends_at_most_bind 1 0).
  - apply sends_at_most_run. repeat case_decide; reflexivity.
  - intros result. apply sends_nothing.
Qed.

Lemma refresh_relationship_quiet (session : SessionType) (model : Model)
    (rel_property : string) :
  sends_at_most 1 (refresh_relationship session model rel_property).
Proof.
  unfold refresh_relationship.
  assert (Hraise : forall c msg, sends_at_most 1 (raise (A:=Model) c msg)).
  { intros c msg. apply (sends_at_most_le 0 1); [lia | apply sends_nothing]. }
  destruct (dict_get _ rel_property) as [field|]; [|apply Hraise].
  destruct (get_origin field) as [origin|]; [|apply Hraise].
  destruct (negb (origin_is_class origin)); [apply Hraise|].
  destruct (negb (origin_is_sequence origin)); [apply Hraise|]. cbv zeta.
  destruct (List.filter is_Relationship (metadata field))
    as [|[| rel_type direction |] [|]]; try apply Hraise.
  destruct (get_args field) as [|edge_cls more]; [apply Hraise|].
  apply (sends_at_most_bind 1 0);
    [apply retrieve_relationship_edges_quiet|].
  intros results. apply sends_nothing.
Qed.

(** X10.  [create_relationship], [retrieve_relationship_edges] and
    [refresh_relationship], on any arguments and in any state, leave the
    constraint cache as it is and call the session at most once, never with
    a constraint statement. *)
Theorem relationship_operations_footprint (session : SessionType)
    (model other : Model) (rel_props : option Model)
    (rel_type : option string) (name direction : string)
    (edge_cls : EdgeCls) :
  sends_at_most 1
    (create_relationship session model other rel_props rel_type)
  /\ sends_at_most 1
       (retrieve_relationship_edges session model name direction edge_cls)
  /\ sends_at_most 1 (refresh_relationship session model name).
Proof.
  split; [apply create_relationship_quiet|].
  split; [apply retrieve_relationship_edges_quiet
         | apply refresh_relationship_quiet].
Qed.

(** ** Errors raised before the session is called *)

(** X12.  When a key field of the model is not among its attributes, reading
    the key attributes raises [AttributeError]; [retrieve_relationship_edges]
    (given a valid edge class) and [create_relationship] (given a name) raise
    that error with the state untouched, the session not called. *)
Theorem missing_key_attribute_stops_before_the_session
    (session : SessionType) (model other : Model) (field : string)
    (w : World) :
  field ∈ _extract_key_fields (type model) ->
  dict_get (attrs model) field = None ->
  exists e,
    getattr_dict model (_extract_key_fields (type model)) [] = Raise e
    /\ exc_type e = AttributeError
    /\ (forall rel_name direction edge_cls validators,
          _validate_edge_type edge_cls = Return validators ->
          retrieve_relationship_edges session model rel_name direction
            edge_cls w
          = (Raise e, w))
    /\ (forall rel_props rel_type name,
          resolved_rel_name rel_type rel_props = Some name ->
          create_relationship session model other rel_props rel_type w
          = (Raise e, w)).
Proof.
  intros Hin Hnone.
  destruct (getattr_dict_missing model _ [] field Hin Hnone) as [e Hraise].
  exists e. split; [exact Hraise|].
  split; [apply (getattr_dict_AttributeError model _ [] e Hraise)|].
  split.
  - intros rel_name direction edge_cls [tv pv] Hvalid.
    unfold retrieve_relationship_edges. rewrite Hvalid.
    unfold mbind, Async_bind, mret, Async_ret, lift. cbv zeta.
    destruct (_extract_key_fields (type model)) as [|k ks];
      [inversion Hin|].
    rewrite Hraise. reflexivity.
  - intros rel_props rel_type name Hname.
    unfold create_relationship. unfold mbind, Async_bind at 1.
    assert (Hres :
      (match rel_type, rel_props with
       | Some rel_type, _ => mret rel_type
       | None, Some rel_props =>
           mret (default (__name__ (type rel_props))
                   (cfg_rel_type (default (Build_Config None None)
                      (cypherantic_config (type rel_props)))))
       | None, None =>
           raise CypheranticError
             "Either rel_cls or rel_type must be provided"
       end : Async string) w = (Return name, w)).
    { unfold resolved_rel_name, declared_rel_type in Hname.
      unfold mret, Async_ret.
      destruct rel_type as [given|]; [congruence|].
      destruct rel_props as [props|]; [|discriminate].
      destruct (cypherantic_config (type props)); cbn in Hname |- *;
        congruence. }
    rewrite Hres. clear Hres.
    unfold mbind, Async_bind, mret, Async_ret, lift. cbv zeta.
    destruct (_extract_key_fields (type model)) as [|k ks];
      [inversion Hin|].
    rewrite Hraise. reflexivity.
Qed.

(** A [Person] without its [name]. *)
Lemma missing_key_attribute_stops_before_the_session_witness :
  exists e,
    exc_type e = AttributeError
    /\ retrieve_relationship_edges mock_session nameless "KNOWS" "OUTGOING"
         FriendEdge initial_world
       = (Raise e, initial_world)
    /\ create_relationship mock_session nameless bob None (Some "KNOWS")
         initial_world
       = (Raise e, initial_world).
Proof.
  destruct (missing_key_attribute_stops_before_the_session mock_session
              nameless bob "name" initial_world)
    as (e & _ & Htype & Hretrieve & Hcreate).
  - left.
  - reflexivity.
  - exists e. split; [exact Htype|]. split.
    + apply (Hretrieve "KNOWS" "OUTGOING" FriendEdge (accept, accept)).
      reflexivity.
    + apply (Hcreate None (Some "KNOWS") "KNOWS"). reflexivity.
Defined.



(** ** Retrieval *)

Lemma hydrate_edges_rows (tuple_cls : EdgeCls)
    (target_validate prop_validate : Value -> Outcome Value)
    (rows : AsyncResult) :
  forall acc results,
    hydrate_edges tuple_cls target_validate prop_validate rows acc
    = Return results ->
    exists edges,
      results = (acc ++ edges)%list
      /\ Forall2 (hydrated tuple_cls target_validate prop_validate)
                 rows edges.
Proof.
  induction rows as [|record rows IH]; intros acc results Hrun.
  - cbn in Hrun. injection Hrun as <-. exists []. rewrite app_nil_r.
    split; [reflexivity | constructor].
  - cbn [hydrate_edges] in Hrun. unfold record_item in Hrun.
    destruct (dict_get record "r") as [r|] eqn:Hr; [|discriminate].
    destruct (prop_validate r) as [rel_instance|] eqn:Hp; [|discriminate].
    destruct (dict_get record "b") as [b|] eqn:Hb; [|discriminate].
    destruct (target_validate b) as [node_instance|] eqn:Ht; [|discriminate].
    destruct (IH _ results Hrun) as (edges & -> & Hall).
    eexists (_ :: edges). rewrite <- app_assoc. split; [reflexivity|].
    constructor; [|exact Hall].
    exists r, b, rel_instance, node_instance. auto.
Qed.

Lemma bind_Return {A B} (m : Async A) (f : A -> Async B) (w w' : World)
    (b : B) :
  (m ≫= f) w = (Return b, w') ->
  exists a w1, m w = (Return a, w1) /\ f a w1 = (Return b, w').
Proof.
  unfold mbind, Async_bind. destruct (m w) as [[a|e] w1]; intros H;
    [|discriminate].
  exists a, w1. split; [reflexivity | exact H].
Qed.

Lemma key_parameters_state (model : Model) (key_fields : list string)
    (params : Dict Value) (name : string) (w w1 : World)
    (o : Outcome (Dict Value)) :
  (match key_fields with
   | [] => mret params
   | k :: ks =>
       props ← lift (getattr_dict model (k :: ks) []);
       mret (dict_set params name (VDict props))
   end : Async (Dict Value)) w = (o, w1) ->
  w1 = w.
Proof.
  unfold mbind, Async_bind, mret, Async_ret, lift.
  destruct key_fields; [congruence|].
  destruct (getattr_dict _ _ _); congruence.
Qed.

Lemma instrumented_run_Return (session : SessionType) (q : string)
    (params : Dict Value) (w w1 : World) (rows : AsyncResult) :
  _instrumented_run session q params w = (Return rows, w1) ->
  w1 = called w (mkStatement q params)
  /\ run session (call_args_list w) q params = Return rows.
Proof.
  unfold _instrumented_run, session_run, raise.
  destruct (json_serializable _); [|discriminate].
  intros H. injection H as Hrows <-. split; [reflexivity | exact Hrows].
Qed.

(** X14.  When [retrieve_relationship_edges] returns, it has sent exactly one
    statement, the session answered it with some rows, and the list returned
    has one edge per row, in the order of the rows: the edge of a row holds
    column [b] validated by the node class and column [r] validated by the
    properties class. *)
Theorem retrieved_edges_follow_the_rows (session : SessionType)
    (model : Model) (rel_name direction : string) (edge_cls : EdgeCls)
    (w w' : World) (results : list Value) :
  retrieve_relationship_edges session model rel_name direction edge_cls w
  = (Return results, w') ->
  exists st rows target_validate prop_validate,
    w' = called w st
    /\ run session (call_args_list w) (query st) (parameters st)
       = Return rows
    /\ _validate_edge_type edge_cls
       = Return (target_validate, prop_validate)
    /\ Forall2 (hydrated edge_cls target_validate prop_validate)
               rows results
    /\ length results = length rows.
Proof.
  unfold retrieve_relationship_edges. intros Hrun.
  apply bind_Return in Hrun as ([tv pv] & w1 & Hvalid & Hrun).
  unfold lift in Hvalid. injection Hvalid as Hvalid <-.
  cbv zeta in Hrun.
  apply bind_Return in Hrun as (params & w2 & Hparams & Hrun).
  apply key_parameters_state in Hparams as ->.
  apply bind_Return in Hrun as (rows & w3 & Hanswer & Hrun).
  apply instrumented_run_Return in Hanswer as [-> Hanswer].
  unfold lift in Hrun. injection Hrun as Hhydrate <-.
  destruct (hydrate_edges_rows edge_cls tv pv rows [] results Hhydrate)
    as (edges & -> & Hall).
  eexists _, rows, tv, pv. split; [reflexivity|].
  split; [exact Hanswer|]. split; [exact Hvalid|].
  split; [exact Hall|]. symmetry. apply (Forall2_length _ _ _ Hall).
Qed.

(** One row, one edge. *)
Lemma retrieved_edges_follow_the_rows_witness :
  exists results,
    fst (retrieve_relationship_edges edge_session alice "KNOWS" "OUTGOING"
           FriendEdge initial_world)
    = Return results
    /\ length results = 1.
Proof.
  destruct (retrieved_edges_follow_the_rows edge_session alice "KNOWS"
              "OUTGOING" FriendEdge initial_world
              (snd (retrieve_relationship_edges edge_session alice "KNOWS"
                      "OUTGOING" FriendEdge initial_world))
              [VObject "FriendEdge"
                 [("node", VObject "Node" []);
                  ("properties", VObject "Relationship" [])]])
    as (st & rows & tv & pv & _ & Hrows & _ & _ & Hlen).
  - reflexivity.
  - eexists. split; [reflexivity | reflexivity].
Defined.

(** X15.  A direction that is neither [INCOMING] nor [OUTGOING], whatever
    the string, is treated exactly as [UNDIRECTED]:
    [retrieve_relationship_edges] has the same outcome and leaves the same
    state.  So whenever the call gets as far as the session (the edge class
    is valid, the key attributes are there and are JSON data), the statement
    it sends is the undirected pattern. *)
Theorem unknown_direction_is_undirected (session : SessionType)
    (model : Model) (rel_name direction : string) (edge_cls : EdgeCls)
    (w : World) :
  direction <> "INCOMING" ->
  direction <> "OUTGOING" ->
  retrieve_relationship_edges session model rel_name direction edge_cls w
  = retrieve_relationship_edges session model rel_name "UNDIRECTED"
      edge_cls w
  /\ forall validators props,
       _validate_edge_type edge_cls = Return validators ->
       getattr_dict model (_extract_key_fields (type model)) []
       = Return props ->
       json_serializable (VDict props) = true ->
       call_args_list
         (snd (retrieve_relationship_edges session model rel_name direction
                 edge_cls w))
       = (call_args_list w
          ++ [mkStatement
                ("MATCH (a:" +:+ join "&" (_extract_labels (type model))
                 +:+ " "
                 +:+ _build_match_clause (type model) "from_node_props"
                 +:+ ")-[r:$($rel_name)]-(b) RETURN r, b")
                (retrieval_parameters props rel_name)])%list.
Proof.
  intros Hin Hout. split.
  - unfold retrieve_relationship_edges.
    destruct (decide (direction = "INCOMING")) as [Heq|_];
      [contradiction|].
    destruct (decide (direction = "OUTGOING")) as [Heq|_];
      [contradiction|].
    destruct (decide ("UNDIRECTED" = "INCOMING")) as [Heq|_];
      [discriminate Heq|].
    destruct (decide ("UNDIRECTED" = "OUTGOING")) as [Heq|_];
      [discriminate Heq|].
    reflexivity.
  - intros validators props Hvalid Hprops Hjson.
    rewrite (retrieve_relationship_edges_sends _ _ _ _ _ _ _ _
               Hvalid Hprops Hjson).
    repeat case_decide; congruence.
Qed.

(** Lower-case [incoming] is not [INCOMING]: with a valid edge class the
    undirected pattern is sent, and with a class that is no edge the call
    fails as it does for [UNDIRECTED]. *)
Lemma unknown_direction_is_undirected_witness :
  map query
    (call_args_list
       (snd (retrieve_relationship_edges mock_session alice "KNOWS"
               "incoming" FriendEdge initial_world)))
  = ["MATCH (a:Person {name:$from_node_props.name})"
     +:+ "-[r:$($rel_name)]-(b) RETURN r, b"]
  /\ retrieve_relationship_edges mock_session alice "KNOWS" "incoming"
       NotAnEdge initial_world
     = retrieve_relationship_edges mock_session alice "KNOWS" "UNDIRECTED"
         NotAnEdge initial_world.
Proof.
  destruct (unknown_direction_is_undirected mock_session alice "KNOWS"
              "incoming" FriendEdge initial_world) as [_ Hsent].
  { discriminate. }
  { discriminate. }
  destruct (unknown_direction_is_undirected mock_session alice "KNOWS"
              "incoming" NotAnEdge initial_world) as [Hsame _].
  { discriminate. }
  { discriminate. }
  split; [|exact Hsame].
  rewrite (Hsent (accept, accept) [("name", VStr "Alice")]);
    reflexivity.
Defined.

(** X16.  When [refresh_relationship] returns, the field is declared with a
    sequence origin, exactly one [Relationship] and an element type;
    [retrieve_relationship_edges] was called with the name and direction of
    that [Relationship] and that element type and returned; the field now
    holds the list it returned, and the class and every other attribute of
    the model are as before. *)
Theorem refresh_relationship_replaces_the_field (session : SessionType)
    (model model' : Model) (rel_property : string) (w w' : World) :
  refresh_relationship session model rel_property w = (Return model', w') ->
  type model' = type model
  /\ (forall other, other <> rel_property ->
        dict_get (attrs model') other = dict_get (attrs model) other)
  /\ exists field origin rel_type direction edge_cls more results,
       dict_get (model_fields (type model)) rel_property = Some field
       /\ get_origin field = Some origin
       /\ origin_is_sequence origin = true
       /\ List.filter is_Relationship (metadata field)
          = [Relationship rel_type direction]
       /\ get_args field = edge_cls :: more
       /\ retrieve_relationship_edges session model rel_type direction
            edge_cls w
          = (Return results, w')
       /\ dict_get (attrs model') rel_property = Some (VList results).
Proof.
  unfold refresh_relationship, raise. intros Hrun.
  destruct (dict_get (model_fields (type model)) rel_property)
    as [field|] eqn:Hfield; [|discriminate].
  destruct (get_origin field) as [origin|] eqn:Horigin; [|discriminate].
  destruct (origin_is_class origin); cbn [negb] in Hrun; [|discriminate].
  destruct (origin_is_sequence origin) eqn:Hseq; cbn [negb] in Hrun;
    [|discriminate].
  cbv zeta in Hrun.
  destruct (List.filter is_Relationship (metadata field))
    as [|[| rel_type direction |] [|]] eqn:Hrel; try discriminate.
  destruct (get_args field) as [|edge_cls more] eqn:Hargs; [discriminate|].
  apply bind_Return in Hrun as (results & w1 & Hretrieve & Hset).
  unfold mret, Async_ret in Hset. injection Hset as <- <-.
  split; [reflexivity|]. split.
  - intros other Hne. cbn [setattr attrs].
    apply dict_get_set_ne. congruence.
  - exists field, origin, rel_type, direction, edge_cls, more, results.
    repeat split; auto. cbn [setattr attrs]. apply dict_get_set_eq.
Qed.

(** The employees of a [Company]. *)
Lemma refresh_relationship_replaces_the_field_witness :
  exists model',
    fst (refresh_relationship edge_session techcorp "employees"
           initial_world)
    = Return model'
    /\ type model' = Company
    /\ dict_get (attrs model') "name" = Some (VStr "TechCorp").
Proof.
  destruct (refresh_relationship_replaces_the_field edge_session techcorp
              (setattr techcorp "employees"
                 (VList [VObject "FriendEdge"
                           [("node", VObject "Node" []);
                            ("properties", VObject "Relationship" [])]]))
              "employees" initial_world
              (snd (refresh_relationship edge_session techcorp "employees"
                      initial_world)))
    as (Htype & Hother & _).
  - reflexivity.
  - exists (setattr techcorp "employees"
              (VList [VObject "FriendEdge"
                        [("node", VObject "Node" []);
                         ("properties", VObject "Relationship" [])]])).
    split; [reflexivity|]. split; [exact Htype|].
    rewrite (Hother "name"); [reflexivity | discriminate].
Defined.

(** ** Unwrapping *)

(** X17.  [unwrap_result_as_node] returns an instance exactly when the first
    record of the result has a single column, that column is not [None],
    and [model_validate] accepts it; further records are ignored. *)
Theorem unwrap_result_as_node_returns (model_cls : ModelCls)
    (result : AsyncResult) (instance : Value) :
  unwrap_result_as_node model_cls result = Return instance
  <-> exists key node rest,
        result = [(key, node)] :: rest
        /\ node <> VNone
        /\ model_validate model_cls node = Return instance.
Proof.
  unfold unwrap_result_as_node, single, unwrap_node_as. split.
  - destruct result as [|record rest]; cbn [head]; [discriminate|].
    destruct record as [|[key node] [|column columns]];
      cbn [length]; repeat case_bool_decide; cbn [negb]; try lia;
      try discriminate.
    cbn [record_first]. intros Hrun.
    exists key, node, rest. split; [reflexivity|].
    destruct node; try discriminate; auto.
  - intros (key & node & rest & -> & Hnode & Hvalid). cbn [head length].
    repeat case_bool_decide; cbn [negb]; try lia.
    cbn [record_first]. destruct node; try exact Hvalid. congruence.
Qed.

(** One record, one node. *)
Lemma unwrap_result_as_node_returns_witness :
  unwrap_result_as_node Person [[("n", VObject "Node" [])]]
  = Return (VObject "Node" []).
Proof.
  apply (unwrap_result_as_node_returns Person [[("n", VObject "Node" [])]]
           (VObject "Node" [])).
  exists "n", (VObject "Node" []), []. split; [reflexivity|].
  split; [discriminate | reflexivity].
Defined.
